(** * sitemap.py: a shallow embedding and its verified properties

    The program walks a directory of static HTML files, resolves a
    last-modified stamp for each page, splits the URL list over sitemap
    files and writes a sitemap index.  Python values are modelled as
    follows.

    - [str] is [string]; a character is a code point below 256, so
      [str.lower], [\s] and [\d] are the Python ones restricted to that
      range.
    - [int] is [Z]; [//] and [%] are [Z.div] and [Z.modulo], which agree
      with Python's floor division whenever the divisor is not zero.
    - a [dict] with string keys is a [gmap string _].
    - exceptions are values of [exn], threaded by the monad [M] together
      with the state of the outside world (clock, console, written files).
*)

From Stdlib Require Import ZArith Ascii String.
From stdpp Require Import base tactics option list numbers strings pretty gmap.

Set Warnings "-register-all".
Local Open Scope Z_scope.

(** ** Strings *)

Module Str.

Definition code (c : ascii) : N := N_of_ascii c.

(** [str.lower] on one code point below 256. *)
Definition lower_char (c : ascii) : ascii :=
  let n := code c in
  if ((65 <=? n) && (n <=? 90))%N then ascii_of_N (n + 32)
  else if ((192 <=? n) && (n <=? 222) && negb (n =? 215))%N
       then ascii_of_N (n + 32)
  else c.

Fixpoint lower (s : string) : string :=
  match s with
  | "" => ""
  | String c s' => String (lower_char c) (lower s')
  end.

(** [\s] of the [re] module (equally [str.isspace]). *)
Definition is_space (c : ascii) : bool :=
  let n := code c in
  (((9 <=? n) && (n <=? 13)) || ((28 <=? n) && (n <=? 32))
   || (n =? 133) || (n =? 160))%N.

(** [\d] of the [re] module. *)
Definition is_digit (c : ascii) : bool :=
  let n := code c in ((48 <=? n) && (n <=? 57))%N.

Definition in_range (lo hi : ascii) (c : ascii) : bool :=
  ((code lo <=? code c) && (code c <=? code hi))%N.

Definition len (s : string) : Z := Z.of_nat (String.length s).

(** [s.startswith(p)] *)
Fixpoint startswith (s p : string) {struct p} : bool :=
  match p, s with
  | "", _ => true
  | String a p', String b s' => if Ascii.eqb a b then startswith s' p' else false
  | String _ _, "" => false
  end.

(** [s.endswith(p)]: some suffix of [s] is [p]. *)
Fixpoint endswith (s p : string) : bool :=
  String.eqb s p ||
  match s with
  | "" => false
  | String _ s' => endswith s' p
  end.

(** [p in s] *)
Fixpoint contains (p s : string) : bool :=
  startswith s p ||
  match s with
  | "" => false
  | String _ s' => contains p s'
  end.

(** [s[:-1]] *)
Fixpoint drop_last (s : string) : string :=
  match s with
  | "" => ""
  | String c "" => ""
  | String c s' => String c (drop_last s')
  end.

(** [s.rstrip(c)] for a one-character argument. *)
Fixpoint rstrip_char (c : ascii) (s : string) : string :=
  match s with
  | "" => ""
  | String a s' =>
      match rstrip_char c s' with
      | "" => if Ascii.eqb a c then "" else String a ""
      | r => String a r
      end
  end.

(** [s.strip()] *)
Fixpoint lstrip (s : string) : string :=
  match s with
  | "" => ""
  | String a s' => if is_space a then lstrip s' else s
  end.

Fixpoint rstrip (s : string) : string :=
  match s with
  | "" => ""
  | String a s' =>
      match rstrip s' with
      | "" => if is_space a then "" else String a ""
      | r => String a r
      end
  end.

Definition strip (s : string) : string := rstrip (lstrip s).

(** [s.replace(a, b)] for one-character [a] and [b]. *)
Fixpoint replace_char (a b : ascii) (s : string) : string :=
  match s with
  | "" => ""
  | String c s' => String (if Ascii.eqb c a then b else c) (replace_char a b s')
  end.

(** [sep.join(l)] *)
Fixpoint join (sep : string) (l : list string) : string :=
  match l with
  | [] => ""
  | [x] => x
  | x :: l' => x +:+ sep +:+ join sep l'
  end.

Fixpoint take (n : nat) (s : string) : string :=
  match n, s with
  | S n', String c s' => String c (take n' s')
  | _, _ => ""
  end.

Fixpoint repeat (c : ascii) (n : nat) : string :=
  match n with
  | O => ""
  | S n' => String c (repeat c n')
  end.

Definition all (p : ascii -> bool) (s : string) : bool :=
  forallb p (list_ascii_of_string s).

(** [s[i]], when in range. *)
Definition get (i : nat) (s : string) : option ascii := String.get i s.

End Str.

(** ** Integers as text *)

(** [str(n)] *)
Definition str_int (n : Z) : string := pretty n.

(** ["%0<w>d" % n] *)
Definition fmt_0d (w : nat) (n : Z) : string :=
  if n <? 0 then
    let digits := str_int (- n) in
    "-" +:+ Str.repeat "0" (w - 1 - String.length digits) +:+ digits
  else
    let digits := str_int n in
    Str.repeat "0" (w - String.length digits) +:+ digits.

Definition digit_value (c : ascii) : Z := Z.of_N (Str.code c) - 48.

Fixpoint digits_value (acc : Z) (s : string) : Z :=
  match s with
  | "" => acc
  | String c s' => digits_value (10 * acc + digit_value c) s'
  end.

(** ** Exceptions *)

Inductive exn :=
| OSError (msg : string)
| ValueError (msg : string)
| KeyError (key : string)
| ZeroDivisionError.

Inductive result (A : Type) :=
| Ok (a : A)
| Raise (e : exn).
Arguments Ok {A} a.
Arguments Raise {A} e.

(** [str(e)] *)
Definition str_exn (e : exn) : string :=
  match e with
  | OSError msg => msg
  | ValueError msg => msg
  | KeyError key => "'" +:+ key +:+ "'"
  | ZeroDivisionError => "integer division or modulo by zero"
  end.

(** [int(s)] on the text of a [strptime] group: surrounding white space
    is dropped and what is left must be decimal digits. *)
Definition py_int (s : string) : result Z :=
  let t := Str.strip s in
  match t with
  | "" => Raise (ValueError "invalid literal for int()")
  | _ => if Str.all Str.is_digit t then Ok (digits_value 0 t)
         else Raise (ValueError "invalid literal for int()")
  end.

(** ** [datetime] *)

Record datetime := mkdatetime {
  year : Z; month : Z; day : Z;
  hour : Z; minute : Z; second : Z; microsecond : Z
}.

Definition is_leap (y : Z) : bool :=
  (y mod 4 =? 0) && (negb (y mod 100 =? 0) || (y mod 400 =? 0)).

Definition days_in_month (y m : Z) : Z :=
  if m =? 2 then (if is_leap y then 29 else 28)
  else if (m =? 4) || (m =? 6) || (m =? 9) || (m =? 11) then 30
  else 31.

(** The field checks of the [datetime] constructor. *)
Definition valid_date (y m d : Z) : bool :=
  (1 <=? y) && (y <=? 9999) && (1 <=? m) && (m <=? 12)
  && (1 <=? d) && (d <=? days_in_month y m).

Definition valid_time (H M S us : Z) : bool :=
  (0 <=? H) && (H <=? 23) && (0 <=? M) && (M <=? 59)
  && (0 <=? S) && (S <=? 59) && (0 <=? us) && (us <=? 999999).

(** [datetime(y, m, d, H, M, S, us)] *)
Definition datetime_new (y m d H M S us : Z) : result datetime :=
  if negb (valid_date y m d) then Raise (ValueError "date out of range")
  else if negb (valid_time H M S us) then Raise (ValueError "time out of range")
  else Ok (mkdatetime y m d H M S us).

(** [dt.replace(microsecond=0)] *)
Definition replace_microsecond (dt : datetime) (us : Z) : datetime :=
  mkdatetime (year dt) (month dt) (day dt) (hour dt) (minute dt) (second dt) us.

(** [dt.replace(hour=0, minute=0, second=0, microsecond=0)] *)
Definition replace_midnight (dt : datetime) : datetime :=
  mkdatetime (year dt) (month dt) (day dt) 0 0 0 0.

Definition fmt_date (y m d : Z) : string :=
  fmt_0d 4 y +:+ "-" +:+ fmt_0d 2 m +:+ "-" +:+ fmt_0d 2 d.

Definition fmt_time (H M S : Z) : string :=
  fmt_0d 2 H +:+ ":" +:+ fmt_0d 2 M +:+ ":" +:+ fmt_0d 2 S.

(** [dt.isoformat()]: the fraction is printed only when it is not zero. *)
Definition isoformat (dt : datetime) : string :=
  fmt_date (year dt) (month dt) (day dt) +:+ "T"
  +:+ fmt_time (hour dt) (minute dt) (second dt)
  +:+ (if microsecond dt =? 0 then "" else "." +:+ fmt_0d 6 (microsecond dt)).

Global Instance result_ret : MRet result := λ A a, Ok a.
Global Instance result_bind : MBind result := λ A B f r,
  match r with
  | Ok a => f a
  | Raise e => Raise e
  end.

(** ** Regular expressions

    The fragment of [re] that the program and [strptime] use, compiled
    with [re.IGNORECASE]: literals compare modulo case, alternation is
    ordered, repetition of a character class is greedy, and the matcher
    backtracks through its continuation. *)

Module Re.

Inductive regex :=
| Eps
| Chr (c : ascii)
| Cls (p : ascii → bool)
| Cat (r1 r2 : regex)
| Alt (r1 r2 : regex)
| Star (p : ascii → bool)
| Plus (p : ascii → bool)
| Grp (name : string) (r : regex).

Fixpoint lit (s : string) : regex :=
  match s with
  | "" => Eps
  | String c s' => Cat (Chr c) (lit s')
  end.

Fixpoint times (n : nat) (r : regex) : regex :=
  match n with
  | O => Eps
  | S n' => Cat r (times n' r)
  end.

Fixpoint greedy {R} (p : ascii → bool) (k : string → option R) (s : string)
  : option R :=
  match s with
  | String c s' =>
      if p c then
        match greedy p k s' with
        | Some x => Some x
        | None => k s
        end
      else k s
  | "" => k s
  end.

Fixpoint run {R} (r : regex) (s : string) (g : gmap string string)
    (k : string → gmap string string → option R) : option R :=
  match r with
  | Eps => k s g
  | Chr c =>
      match s with
      | String x s' =>
          if Ascii.eqb (Str.lower_char x) (Str.lower_char c) then k s' g else None
      | "" => None
      end
  | Cls p =>
      match s with
      | String x s' => if p x then k s' g else None
      | "" => None
      end
  | Cat r1 r2 => run r1 s g (λ s' g', run r2 s' g' k)
  | Alt r1 r2 =>
      match run r1 s g k with
      | Some x => Some x
      | None => run r2 s g k
      end
  | Star p => greedy p (λ s', k s' g) s
  | Plus p =>
      match s with
      | String x s' => if p x then greedy p (λ s', k s' g) s' else None
      | "" => None
      end
  | Grp name r1 =>
      run r1 s g (λ s' g',
        k s' (<[name := Str.take (String.length s - String.length s') s]> g'))
  end.

(** A match object: where the match ends (counted from where it starts)
    and the text of its groups. *)
Record Match := mkMatch { m_end : nat; m_groups : gmap string string }.

(** [m.group(name)] for a group that took part in the match. *)
Definition group (m : Match) (name : string) : option string :=
  m_groups m !! name.

(** [r.match(s)] *)
Definition match_ (r : regex) (s : string) : option Match :=
  run r s ∅ (λ s' g, Some (mkMatch (String.length s - String.length s') g)).

(** [r.search(s)]: the match at the leftmost position that has one. *)
Fixpoint search (r : regex) (s : string) : option Match :=
  match match_ r s with
  | Some m => Some m
  | None =>
      match s with
      | "" => None
      | String _ s' => search r s'
      end
  end.

End Re.

Import Re.

(** ** [datetime.strptime] *)

(** The regular expression of one directive (the table of [_strptime.TimeRE]). *)
Definition digit : regex := Cls Str.is_digit.
Definition rg (lo hi : ascii) : regex := Cls (Str.in_range lo hi).

Definition directive_regex (d : ascii) : option regex :=
  match d with
  | "Y"%char => Some (Grp "Y" (times 4 digit))
  | "m"%char => Some (Grp "m"
      (Alt (Cat (Chr "1") (rg "0" "2")) (Alt (Cat (Chr "0") (rg "1" "9")) (rg "1" "9"))))
  | "d"%char => Some (Grp "d"
      (Alt (Cat (Chr "3") (rg "0" "1"))
      (Alt (Cat (rg "1" "2") digit)
      (Alt (Cat (Chr "0") (rg "1" "9"))
      (Alt (rg "1" "9") (Cat (Chr " ") (rg "1" "9")))))))
  | "H"%char => Some (Grp "H"
      (Alt (Cat (Chr "2") (rg "0" "3")) (Alt (Cat (rg "0" "1") digit) digit)))
  | "M"%char => Some (Grp "M" (Alt (Cat (rg "0" "5") digit) digit))
  | "S"%char => Some (Grp "S"
      (Alt (Cat (Chr "6") (rg "0" "1")) (Alt (Cat (rg "0" "5") digit) digit)))
  | _ => None
  end.

(** [TimeRE.pattern]: a directive becomes its regular expression, a run of
    white space becomes [\s+], any other character stands for itself. *)
Fixpoint format_regex (in_space : bool) (format : string) : result regex :=
  match format with
  | "" => Ok Eps
  | String "%" "" => Raise (ValueError "stray % in format")
  | String "%" (String d rest) =>
      match directive_regex d with
      | None => Raise (ValueError "bad directive in format")
      | Some r => r' ← format_regex false rest; Ok (Cat r r')
      end
  | String c rest =>
      if Str.is_space c then
        r' ← format_regex true rest;
        Ok (if in_space then r' else Cat (Plus Str.is_space) r')
      else
        r' ← format_regex false rest; Ok (Cat (Chr c) r')
  end.

(** [int(found_dict[name])], or the default when the format has no such
    directive. *)
Definition group_int (found : Match) (name : string) (default : Z) : result Z :=
  match group found name with
  | Some s => py_int s
  | None => Ok default
  end.

Definition strptime (data_string format : string) : result datetime :=
  format_re ← format_regex false format;
  match match_ format_re data_string with
  | None => Raise (ValueError "time data does not match format")
  | Some found =>
      if negb (String.length data_string =? m_end found)%nat
      then Raise (ValueError "unconverted data remains")
      else
        y ← group_int found "Y" 1900;
        m ← group_int found "m" 1;
        d ← group_int found "d" 1;
        H ← group_int found "H" 0;
        M ← group_int found "M" 0;
        S ← group_int found "S" 0;
        datetime_new y m d H M S 0
  end.

Definition show (r : result datetime) : string :=
  match r with Ok dt => isoformat dt | Raise e => "ValueError" end.

(** ** The two patterns of the program *)

Definition not_quote (c : ascii) : bool := negb (Ascii.eqb c "'").

(** ['creationDate'\s*=>\s*'([^']+)'], with [re.IGNORECASE] *)
Definition creation_date_regex : regex :=
  Cat (lit "'creationDate'")
  (Cat (Star Str.is_space)
  (Cat (lit "=>")
  (Cat (Star Str.is_space)
  (Cat (Chr "'")
  (Cat (Grp "1" (Plus not_quote))
       (Chr "'")))))).

(** [(\d{4}-\d{2}-\d{2})\s+by], with [re.IGNORECASE] *)
Definition content_date_regex : regex :=
  Cat (Grp "1" (Cat (times 4 digit)
               (Cat (Chr "-")
               (Cat (times 2 digit)
               (Cat (Chr "-")
                    (times 2 digit))))))
  (Cat (Plus Str.is_space)
       (lit "by")).

Definition MAX_URLS_PER_SITEMAP : Z := 1000.

(** ** XML element trees

    [ET.SubElement] attaches the new element to its parent and hands back
    a reference to it; the program then assigns the text through that
    reference.  A reference is the position of the element below the root
    of its document. *)

Inductive Element :=
| mkElement (tag : string) (attrib : list (string * string))
            (text : option string) (children : list Element).

Definition e_tag (e : Element) : string :=
  match e with mkElement t _ _ _ => t end.
Definition e_attrib (e : Element) : list (string * string) :=
  match e with mkElement _ a _ _ => a end.
Definition e_text (e : Element) : option string :=
  match e with mkElement _ _ x _ => x end.
Definition e_children (e : Element) : list Element :=
  match e with mkElement _ _ _ cs => cs end.

Module ET.

Definition ref := list nat.

Fixpoint find (h : ref) (root : Element) : option Element :=
  match h with
  | [] => Some root
  | i :: h' =>
      match e_children root !! i with
      | Some c => find h' c
      | None => None
      end
  end.

Fixpoint alter_at (f : Element → Element) (h : ref)
    (root : Element) : Element :=
  match h with
  | [] => f root
  | i :: h' =>
      match root with
      | mkElement t a x cs => mkElement t a x (alter (alter_at f h') i cs)
      end
  end.

Definition append (child e : Element) : Element :=
  match e with
  | mkElement t a x cs => mkElement t a x (cs ++ [child])
  end.

(** [ET.SubElement(parent, tag)], in the document [root] *)
Definition SubElement (root : Element) (parent : ref) (tag : string)
  : Element * ref :=
  let n := match find parent root with
           | Some p => length (e_children p)
           | None => O
           end in
  (alter_at (append (mkElement tag [] None [])) parent root, parent ++ [n]).

(** [elem.text = value], in the document [root] *)
Definition set_text (root : Element) (elem : ref) (value : string)
  : Element :=
  alter_at (λ e, match e with mkElement t a _ cs => mkElement t a (Some value) cs end)
           elem root.

(** [ET.Element(tag, **attrib)] *)
Definition Element (tag : string) (attrib : list (string * string)) : Element :=
  mkElement tag attrib None [].

End ET.

Definition xmlns : string := "http://www.sitemaps.org/schemas/sitemap/0.9".

(** ** The outside world

    What the program is given: the path separator of the platform, the
    tree below the scanned directory as [os.walk] lists it, what opening
    and reading a file gives, the modification time of a file (as
    [datetime.fromtimestamp(os.path.getmtime(p))], or the [OSError] of
    [getmtime]), and what the successive calls of [datetime.now()] return.
    A path is the list of names from the scanned directory down. *)

Inductive node :=
| File (name : string)
| Dir (name : string) (children : list node).

Record System := mkSystem {
  os_sep : ascii;
  fs_tree : list node;
  fs_open : list string → result string;
  fs_mtime : list string → result datetime;
  clock : nat → datetime
}.

(** What a run changes: the number of clock readings taken, the console,
    and the documents written (each as the element tree handed to
    [prettify_xml], under its file name). *)
Record World := mkWorld {
  now_calls : nat;
  stdout : list string;
  disk : list (string * Element)
}.

Definition M (A : Type) : Type := World → result A * World.

Global Instance M_ret : MRet M := λ A a w, (Ok a, w).
Global Instance M_bind : MBind M := λ A B f m w,
  match m w with
  | (Ok a, w') => f a w'
  | (Raise e, w') => (Raise e, w')
  end.

Definition raise {A} (e : exn) : M A := λ w, (Raise e, w).

Definition lift {A} (r : result A) : M A := λ w, (r, w).

(** [try: body / except Exception as e: handler e] *)
Definition try_except {A} (body : M A) (handler : exn → M A) : M A := λ w,
  match body w with
  | (Ok a, w') => (Ok a, w')
  | (Raise e, w') => handler e w'
  end.

Definition print (line : string) : M unit := λ w,
  (Ok (), mkWorld (now_calls w) (stdout w ++ [line]) (disk w)).

Definition write_file (filename : string) (doc : Element) : M unit := λ w,
  (Ok (), mkWorld (now_calls w) (stdout w) (disk w ++ [(filename, doc)])).

Fixpoint for_M {S A} (body : S → A → M S) (init : S) (l : list A) : M S :=
  match l with
  | [] => mret init
  | x :: l' => s ← body init x; for_M body s l'
  end.

Fixpoint for_result {S A} (body : S → A → result S) (init : S) (l : list A)
  : result S :=
  match l with
  | [] => Ok init
  | x :: l' => s ← body init x; for_result body s l'
  end.

(** [os.walk(top)]: a directory yields its own listing first, then those
    of its subdirectories in listing order. *)
Definition dir_names (l : list node) : list string :=
  omap (λ n, match n with Dir d _ => Some d | File _ => None end) l.
Definition file_names (l : list node) : list string :=
  omap (λ n, match n with File f => Some f | Dir _ _ => None end) l.

Fixpoint walk_node (parent : list string) (n : node)
  : list (list string * list string * list string) :=
  match n with
  | File _ => []
  | Dir d listing =>
      let subdir := parent ++ [d] in
      (subdir, dir_names listing, file_names listing)
      :: flat_map (walk_node subdir) listing
  end.

Definition os_walk (listing : list node)
  : list (list string * list string * list string) :=
  ([], dir_names listing, file_names listing) :: flat_map (walk_node []) listing.

(** ** The program *)

Record Args := mkArgs {
  directory : string;
  domain : string;
  max_url : Z;
  output : string
}.

(** An item of [url_entries]: a dict with the keys [loc] and [lastmod]. *)
Abbreviation entry := (gmap string string).

(** The truth value of a string or [None]. *)
Definition truthy (o : option string) : bool :=
  match o with
  | Some "" => false
  | Some _ => true
  | None => false
  end.

(** [d[key]] *)
Definition getitem (d : entry) (key : string) : result string :=
  match d !! key with
  | Some v => Ok v
  | None => Raise (KeyError key)
  end.

(** [range(n)] *)
Definition py_range (n : Z) : list Z := seqZ 0 n.

(** [l[start:stop]]: a negative bound counts from the end, and both are
    clamped to the list. *)
Definition slice_bound (n i : Z) : Z :=
  if i <? 0 then Z.max 0 (i + n) else Z.min i n.

Definition py_slice {A} (l : list A) (start stop : Z) : list A :=
  let n := Z.of_nat (length l) in
  let lo := slice_bound n start in
  let hi := slice_bound n stop in
  take (Z.to_nat (hi - lo)) (drop (Z.to_nat lo) l).

Section Program.

Variable sys : System.

(** [os.path.join(a, b)] for a relative [b] *)
Definition os_path_join (a b : string) : string :=
  if (String.length a =? 0)%nat || Str.endswith a (String (os_sep sys) "")
  then a +:+ b
  else a +:+ String (os_sep sys) b.

(** The text of the path of a file below [root_directory]. *)
Definition path_str (root_directory : string) (p : list string) : string :=
  foldl os_path_join root_directory p.

(** [os.path.relpath(file_path, root_directory)] for a path that
    [os.walk(root_directory)] produced. *)
Definition os_path_relpath (file_path : list string) : string :=
  match file_path with
  | [] => "."
  | _ => Str.join (String (os_sep sys) "") file_path
  end.

Definition datetime_now : M datetime := λ w,
  (Ok (clock sys (now_calls w)), mkWorld (S (now_calls w)) (stdout w) (disk w)).

(** [with open(file_path, "r", encoding="utf-8", errors="ignore") as f:
    f.read()] *)
Definition open_read (file_path : list string) : M string :=
  lift (fs_open sys file_path).

Definition report_read_error (root_directory : string) (file_path : list string)
    (e : exn) : M (option string) :=
  print ("Error reading file " +:+ path_str root_directory file_path
         +:+ ": " +:+ str_exn e);;
  mret None.

Definition extract_creation_date (root_directory : string) (file_path : list string)
  : M (option string) :=
  try_except
    (content ← open_read file_path;
     match search creation_date_regex content with
     | Some m =>
         match group m "1" with
         | Some date_str =>
             match strptime date_str "%Y-%m-%d %H:%M:%S" with
             | Ok dt => mret (Some (isoformat (replace_microsecond dt 0)))
             | Raise (ValueError _) => mret None
             | Raise e => raise e
             end
         | None => raise (ValueError "no such group")
         end
     | None => mret None
     end)
    (report_read_error root_directory file_path).

Definition extract_date_from_content (root_directory : string)
    (file_path : list string) : M (option string) :=
  try_except
    (content ← open_read file_path;
     match search content_date_regex content with
     | Some m =>
         match group m "1" with
         | Some date_str =>
             match strptime date_str "%Y-%m-%d" with
             | Ok dt => mret (Some (isoformat (replace_midnight dt)))
             | Raise (ValueError _) => mret None
             | Raise e => raise e
             end
         | None => raise (ValueError "no such group")
         end
     | None => mret None
     end)
    (report_read_error root_directory file_path).

Definition get_file_last_modified (file_path : list string) : M string :=
  dt ← lift (fs_mtime sys file_path);
  mret (isoformat (replace_microsecond dt 0)).

Definition generate_url (root_directory : string) (file_path : list string)
    (domain : string) : string :=
  let rel_path := os_path_relpath file_path in
  let rel_url := Str.replace_char (os_sep sys) "/" rel_path in
  let domain := if Str.endswith domain "/" then Str.drop_last domain else domain in
  domain +:+ "/" +:+ rel_url.

(** The body of the loop of [generate_sitemap]. *)
Definition generate_sitemap_entry (urlset : Element) (e : entry) : result Element :=
  let '(urlset, url_elem) := ET.SubElement urlset [] "url" in
  let '(urlset, loc) := ET.SubElement urlset url_elem "loc" in
  loc_text ← getitem e "loc";
  let urlset := ET.set_text urlset loc loc_text in
  if truthy (e !! "lastmod") then
    let '(urlset, lastmod) := ET.SubElement urlset url_elem "lastmod" in
    lastmod_text ← getitem e "lastmod";
    Ok (ET.set_text urlset lastmod lastmod_text)
  else Ok urlset.

Definition generate_sitemap (url_entries : list entry) (filename : string) : M unit :=
  let urlset := ET.Element "urlset" [("xmlns", xmlns)] in
  urlset ← lift (for_result generate_sitemap_entry urlset url_entries);
  write_file filename urlset.

(** The body of the loop of [generate_sitemap_index]. *)
Definition generate_sitemap_index_entry (domain output_dir : string)
    (sitemapindex : Element) (sitemap : string) : M Element :=
  let '(sitemapindex, sm_elem) := ET.SubElement sitemapindex [] "sitemap" in
  let '(sitemapindex, loc) := ET.SubElement sitemapindex sm_elem "loc" in
  let sitemapindex :=
    ET.set_text sitemapindex loc
      (Str.rstrip_char "/" domain +:+ "/" +:+ Str.rstrip_char "/" output_dir
       +:+ "/" +:+ sitemap) in
  let '(sitemapindex, lastmod) := ET.SubElement sitemapindex sm_elem "lastmod" in
  now ← datetime_now;
  mret (ET.set_text sitemapindex lastmod (isoformat (replace_microsecond now 0))).

Definition generate_sitemap_index (sitemap_filenames : list string)
    (domain output_dir : string) : M string :=
  let sitemapindex := ET.Element "sitemapindex" [("xmlns", xmlns)] in
  sitemapindex ← for_M (generate_sitemap_index_entry domain output_dir)
                       sitemapindex sitemap_filenames;
  let index_file := os_path_join output_dir "sitemap_index.xml" in
  write_file index_file sitemapindex;;
  mret index_file.

(** The date chain of [main]: what is stored under [lastmod] for one file. *)
Definition resolve_lastmod (root_directory file : string) (file_path : list string)
  : M string :=
  let file_lower := Str.lower file in
  if Str.startswith file_lower "index" then
    now ← datetime_now;
    mret (isoformat (replace_microsecond now 0))
  else
    content_date ← extract_date_from_content root_directory file_path;
    if truthy content_date then mret (default "" content_date)
    else
      creation ← extract_creation_date root_directory file_path;
      if truthy creation then mret (default "" creation)
      else get_file_last_modified file_path.

(** The body of the inner loop of [main], on the file [file] of the
    directory [subdir]; the state is [(url_entries, total_files)]. *)
Definition main_file (args : Args) (subdir : list string)
    (st : list entry * Z) (file : string) : M (list entry * Z) :=
  let '(url_entries, total_files) := st in
  if Str.endswith (Str.lower file) ".html" then
    let file_path := subdir ++ [file] in
    let url := generate_url (directory args) file_path (domain args) in
    if Str.contains "/user/" (Str.lower url) then mret st
    else
      let total_files := total_files + 1 in
      let e : entry := {[ "loc" := url ]} in
      lastmod ← resolve_lastmod (directory args) file file_path;
      let e := <[ "lastmod" := lastmod ]> e in
      mret (url_entries ++ [e], total_files)
  else mret st.

(** The walk of [main]. *)
Definition main_scan (args : Args) : M (list entry * Z) :=
  for_M (λ st '(subdir, dirs, files), for_M (main_file args subdir) st files)
        ([], 0) (os_walk (fs_tree sys)).

End Program.

(** [num_sitemaps] of [main] *)
Definition num_sitemaps (total_urls max_url : Z) : result Z :=
  if max_url =? 0 then Raise ZeroDivisionError
  else Ok (total_urls / max_url
           + (if negb (total_urls mod max_url =? 0) then 1 else 0)).

(** What the [i]-th round of the writing loop of [main] computes: the
    slice and its file name. *)
Definition sitemap_chunk (url_entries : list entry) (max_url i : Z)
  : string * list entry :=
  let start := i * max_url in
  let end_ := start + max_url in
  let sitemap_entries := py_slice url_entries start end_ in
  let sitemap_filename := "sitemap_" +:+ str_int (i + 1) +:+ ".xml" in
  (sitemap_filename, sitemap_entries).


Section Main.

Variable sys : System.

Definition write_sitemap (output_dir : string) (sitemap_filenames : list string)
    (chunk : string * list entry) : M (list string) :=
  let '(sitemap_filename, sitemap_entries) := chunk in
  let sitemap_full_path := os_path_join sys output_dir sitemap_filename in
  generate_sitemap sitemap_entries sitemap_full_path;;
  mret (sitemap_filenames ++ [sitemap_filename]).

(** [main()], after [parse_args()] and [os.makedirs(output_dir)] *)
Definition main (args : Args) : M unit :=
  let root_directory := directory args in
  let output_dir := output args in
  '(url_entries, total_files) ← main_scan sys args;
  let total_urls := Z.of_nat (length url_entries) in
  num ← lift (num_sitemaps total_urls (max_url args));
  sitemap_filenames ←
    for_M (λ sitemap_filenames i,
             write_sitemap output_dir sitemap_filenames
               (sitemap_chunk url_entries (max_url args) i))
          [] (py_range num);
  sitemap_index_file ← generate_sitemap_index sys sitemap_filenames (domain args) output_dir;
  print "Sitemap Generation Summary:";;
  print ("Total HTML files scanned (after filtering): " +:+ str_int total_files);;
  print ("Total URLs added to sitemaps: " +:+ str_int total_urls);;
  print ("Number of sitemap files generated: " +:+ str_int num);;
  print ("Sitemap index file created at: " +:+ sitemap_index_file).

End Main.

(** ** A small site to run the program on *)

Module Demo.

Definition tree : list node :=
  [ File "index.html";
    Dir "posts" [ File "a.html"; File "b.HTML"; File "notes.txt"; File "c.html" ];
    Dir "User" [ File "Profile.html" ];
    File "gone.html" ].

Definition contents (p : list string) : result string :=
  match p with
  | ["index.html"] => Ok "<p>1061 2017-06-12 by someone</p>"
  | ["posts"; "a.html"] => Ok "<p>1061 2017-06-12 by someone</p>"
  | ["posts"; "b.HTML"] => Ok "<!-- 'creationDate' => '2014-06-19 19:20:00' -->"
  | ["posts"; "c.html"] => Ok "<p>nothing here</p>"
  | ["User"; "Profile.html"] => Ok "<p>private</p>"
  | _ => Raise (OSError "[Errno 2] No such file or directory")
  end.

Definition mtimes (p : list string) : result datetime :=
  match p with
  | ["gone.html"] => Raise (OSError "[Errno 2] No such file or directory")
  | _ => Ok (mkdatetime 2020 1 2 3 4 5 678901)
  end.

(** A clock that ticks 0.6 s between two readings. *)
Definition ticking (n : nat) : datetime :=
  let us := 600000 * Z.of_nat n in
  mkdatetime 2024 5 6 7 8 (us / 1000000) (us mod 1000000).

Definition sys : System := mkSystem "/" tree contents mtimes ticking.

Definition sys_ok : System :=
  mkSystem "/" (take 3 tree) contents mtimes ticking.

Definition world0 : World := mkWorld 0 [] [].

Definition args : Args := mkArgs "/site" "https://example.com/" 2 "sitemaps".

End Demo.

(** ** Reading a document back *)

(** The texts of the children of [e] that carry the tag [tag]. *)
Definition child_texts (tag : string) (e : Element) : list string :=
  omap (λ c, if String.eqb (e_tag c) tag then e_text c else None) (e_children e).

Definition count_children (tag : string) (e : Element) : nat :=
  length (filter (λ c, e_tag c = tag) (e_children e)).

(** The [loc] and [lastmod] texts of an index document, entry by entry. *)
Definition index_locs (doc : Element) : list string :=
  e_children doc ≫= child_texts "loc".

(** The element that one round of a writing loop leaves in the document. *)
Definition sitemap_elem (loc lastmod : string) : Element :=
  mkElement "sitemap" [] None
    [mkElement "loc" [] (Some loc) []; mkElement "lastmod" [] (Some lastmod) []].

Definition url_elem (e : entry) : Element :=
  mkElement "url" [] None
    (mkElement "loc" [] (e !! "loc") []
     :: if truthy (e !! "lastmod") then [mkElement "lastmod" [] (e !! "lastmod") []]
        else []).

(** The clock reading number [n], as it is printed. *)
Definition stamp (sys : System) (n : nat) : string :=
  isoformat (replace_microsecond (clock sys n) 0).

(** ** The claims about the index document, as predicates of a run *)





Module Demo2.



End Demo2.

(** ** What a regular expression matches

    [matches r s g s' g']: [r] can consume a prefix of [s], leaving [s'],
    and turns the groups [g] into [g'].  This is the meaning of the
    expression without the order in which the matcher tries things. *)

Inductive matches : regex → string → gmap string string → string → gmap string string → Prop :=
| matches_Eps s g : matches Eps s g s g
| matches_Chr c x s g :
    Str.lower_char x = Str.lower_char c → matches (Chr c) (String x s) g s g
| matches_Cls (p : ascii → bool) x s g :
    p x = true → matches (Cls p) (String x s) g s g
| matches_Cat r1 r2 s g s1 g1 s2 g2 :
    matches r1 s g s1 g1 → matches r2 s1 g1 s2 g2 → matches (Cat r1 r2) s g s2 g2
| matches_Alt_l r1 r2 s g s' g' :
    matches r1 s g s' g' → matches (Alt r1 r2) s g s' g'
| matches_Alt_r r1 r2 s g s' g' :
    matches r2 s g s' g' → matches (Alt r1 r2) s g s' g'
| matches_Star p pre s g :
    Str.all p pre = true → matches (Star p) (pre +:+ s) g s g
| matches_Plus p pre s g :
    Str.all p pre = true → pre ≠ "" → matches (Plus p) (pre +:+ s) g s g
| matches_Grp name r s g s' g' :
    matches r s g s' g' →
    matches (Grp name r) s g s'
      (<[name := Str.take (String.length s - String.length s') s]> g').

(** ** The embedded markers, in the words of the specification *)

(** The text YYYY-MM-DD: four digits, a dash, two digits, a dash, two digits. *)
Definition is_date_text (t : string) : bool :=
  match t with
  | String y1 (String y2 (String y3 (String y4 (String h1
      (String m1 (String m2 (String h2 (String d1 (String d2 "")))))))))
    => Str.is_digit y1 && Str.is_digit y2 && Str.is_digit y3 && Str.is_digit y4
       && Ascii.eqb h1 "-"
       && Str.is_digit m1 && Str.is_digit m2
       && Ascii.eqb h2 "-"
       && Str.is_digit d1 && Str.is_digit d2
  | _ => false
  end.

(** [s] starts with the date text [date], then at least one white space
    character, then the word "by" in any case. *)
Definition content_date_at (s date : string) : Prop :=
  ∃ ws b y rest,
    s = date +:+ ws +:+ String b (String y rest)
    ∧ is_date_text date = true
    ∧ ws ≠ "" ∧ Str.all Str.is_space ws = true
    ∧ Str.lower_char b = "b"%char ∧ Str.lower_char y = "y"%char.

(** [s] starts with 'creationDate' in any case, white space or none, =>,
    white space or none, and the non-empty quote-free text [value] between
    single quotes. *)
Definition creation_date_at (s value : string) : Prop :=
  ∃ key ws1 ws2 rest,
    s = key +:+ ws1 +:+ "=>" +:+ ws2 +:+ "'" +:+ value +:+ "'" +:+ rest
    ∧ Str.lower key = "'creationdate'"
    ∧ Str.all Str.is_space ws1 = true ∧ Str.all Str.is_space ws2 = true
    ∧ value ≠ "" ∧ Str.all not_quote value = true.

(** The leftmost place of [content] where a marker starts carries [x]. *)
Definition first_marker (at_ : string → string → Prop) (content x : string) : Prop :=
  ∃ pre s,
    content = pre +:+ s ∧ at_ s x
    ∧ ∀ pre' s' x', content = pre' +:+ s' →
        (String.length pre' < String.length pre)%nat → ¬ at_ s' x'.


(** ** Checks by enumeration

    Boolean checks on the decimal text of small numbers; each is run over
    its whole range once. *)

(** [fmt_0d 4 y] is four digits that read back as [y]. *)
Definition check_fmt4 (y : Z) : bool :=
  match fmt_0d 4 y with
  | String a (String b (String c (String d ""))) =>
      Str.is_digit a && Str.is_digit b && Str.is_digit c && Str.is_digit d
      && match py_int (fmt_0d 4 y) with Ok v => v =? y | Raise _ => false end
  | _ => false
  end.

(** [fmt_0d 2 n] is two digits that read back as [n]. *)
Definition check_fmt2 (n : Z) : bool :=
  match fmt_0d 2 n with
  | String a (String b "") =>
      Str.is_digit a && Str.is_digit b
      && match py_int (fmt_0d 2 n) with Ok v => v =? n | Raise _ => false end
  | _ => false
  end.


(** ** Observing a run *)

(** The world after the lines [lines] were printed. *)
Definition printed (lines : list string) (w : World) : World :=
  mkWorld (now_calls w) (stdout w ++ lines) (disk w).

(** What an extractor prints for the file [file_path]: one line when the
    file cannot be read, nothing otherwise. *)
Definition read_error_lines (sys : System) (root_directory : string)
    (file_path : list string) : list string :=
  match fs_open sys file_path with
  | Ok _ => []
  | Raise e =>
      ["Error reading file " +:+ path_str sys root_directory file_path
       +:+ ": " +:+ str_exn e]
  end.

(** A time stamp to the second: YYYY-MM-DDTHH:MM:SS of a date and a time
    of day that exist. *)
Definition is_stamp (s : string) : Prop :=
  ∃ y m d H M S,
    valid_date y m d = true ∧ valid_time H M S 0 = true
    ∧ s = fmt_date y m d +:+ "T" +:+ fmt_time H M S.






(** ** The scan, seen from outside *)

(** The files that [os.walk] lists, each with the directory that lists it,
    in the order in which the loops of [main] come to them. *)
Definition walked_files (listing : list node) : list (list string * string) :=
  os_walk listing ≫= λ '(subdir, _, files), (λ file, (subdir, file)) <$> files.

(** [file] is a file of the directory reached from the scanned one by
    going down through the directories [subdir]. *)
Inductive file_in : list node → list string → string → Prop :=
| file_here listing file :
    File file ∈ listing → file_in listing [] file
| file_below listing d sub subdir file :
    Dir d sub ∈ listing → file_in sub subdir file →
    file_in listing (d :: subdir) file.

(** The location that [main] computes for a walked file. *)
Definition file_url (sys : System) (args : Args) (sf : list string * string) : string :=
  generate_url sys (directory args) (sf.1 ++ [sf.2]) (domain args).

(** The two tests that a walked file passes to get an entry: the name
    ends in .html whatever the case, and the location, in lower case, does
    not contain /user/. *)
Definition selected (sys : System) (args : Args) (sf : list string * string) : bool :=
  Str.endswith (Str.lower sf.2) ".html"
  && negb (Str.contains "/user/" (Str.lower (file_url sys args sf))).

(** The entry of a file whose last-modified value is [lastmod]. *)
Definition entry_of (sys : System) (args : Args) (sf : list string * string)
    (lastmod : string) : entry :=
  <["lastmod" := lastmod]> {["loc" := file_url sys args sf]}.

(** The body of the two loops of the scan as one, on a walked file. *)
Definition scan_step (sys : System) (args : Args) (st : list entry * Z)
    (sf : list string * string) : M (list entry * Z) :=
  main_file sys args sf.1 st sf.2.

(** ** The documents of a run *)

(** The document that [generate_sitemap] builds from entries that all
    have a location: one [url] element for each, in order. *)
Definition urlset_doc (url_entries : list entry) : Element :=
  mkElement "urlset" [("xmlns", xmlns)] None (url_elem <$> url_entries).

(** The document that [generate_sitemap_index] builds when the clock has
    been read [n] times before. *)
Definition index_doc (sys : System) (n : nat) (domain output_dir : string)
    (names : list string) : Element :=
  mkElement "sitemapindex" [("xmlns", xmlns)] None
    (imap (λ i name,
       sitemap_elem
         (Str.rstrip_char "/" domain +:+ "/"
          +:+ Str.rstrip_char "/" output_dir +:+ "/" +:+ name)
         (stamp sys (n + i))) names).

(** The five lines of the summary. *)
Definition summary (total_files total_urls num : Z) (index_file : string)
  : list string :=
  [ "Sitemap Generation Summary:";
    "Total HTML files scanned (after filtering): " +:+ str_int total_files;
    "Total URLs added to sitemaps: " +:+ str_int total_urls;
    "Number of sitemap files generated: " +:+ str_int num;
    "Sitemap index file created at: " +:+ index_file ].

(** * Properties *)

(** ** The model on examples *)

Example isoformat_fraction :
  isoformat (mkdatetime 2017 6 12 1 2 3 45) = "2017-06-12T01:02:03.000045".
Proof. vm_compute. reflexivity. Qed.

Example isoformat_whole :
  isoformat (replace_microsecond (mkdatetime 1 1 1 0 0 0 999999) 0)
  = "0001-01-01T00:00:00".
Proof. vm_compute. reflexivity. Qed.

Example strptime_lenient :
  show (strptime "2014-6-19 9:2:0" "%Y-%m-%d %H:%M:%S") = "2014-06-19T09:02:00".
Proof. vm_compute. reflexivity. Qed.

Example strptime_sec60 :
  show (strptime "2014-06-19 19:20:60" "%Y-%m-%d %H:%M:%S") = "ValueError".
Proof. vm_compute. reflexivity. Qed.

Example strptime_feb29 :
  show (strptime "2014-02-29 00:00:00" "%Y-%m-%d %H:%M:%S") = "ValueError".
Proof. vm_compute. reflexivity. Qed.

Example os_walk_order :
  os_walk [File "a.html"; Dir "d" [File "b.html"; Dir "e" [File "c.html"]]; File "z.txt"]
  = [([], ["d"], ["a.html"; "z.txt"]);
     (["d"], ["e"], ["b.html"]);
     (["d"; "e"], [], ["c.html"])].
Proof. reflexivity. Qed.

Example strptime_tab :
  show (strptime ("2014-06-19" +:+ String (ascii_of_nat 9) "19:20:00") "%Y-%m-%d %H:%M:%S")
  = "2014-06-19T19:20:00".
Proof. vm_compute. reflexivity. Qed.
Example strptime_year0 :
  show (strptime "0000-01-01" "%Y-%m-%d") = "ValueError".
Proof. vm_compute. reflexivity. Qed.
Example strptime_month13 :
  show (strptime "2017-13-01" "%Y-%m-%d") = "ValueError".
Proof. vm_compute. reflexivity. Qed.

(** ** Pagination *)

Section Pagination.

Context {A : Type}.
Implicit Types l : list A.



End Pagination.




(** ** Strings *)

Module StrFacts.

Lemma app_cons a s t : String a s +:+ t = String a (s +:+ t).
Proof. reflexivity. Qed.

Lemma app_nil_l s : "" +:+ s = s.
Proof. reflexivity. Qed.

Lemma app_nil_r s : s +:+ "" = s.
Proof. induction s as [|a s IH]; [done|]. by rewrite app_cons, IH. Qed.

Lemma app_assoc s t u : (s +:+ t) +:+ u = s +:+ t +:+ u.
Proof. induction s as [|a s IH]; [done|]. by rewrite !app_cons, IH. Qed.

Lemma length_app s t : String.length (s +:+ t) = (String.length s + String.length t)%nat.
Proof. induction s as [|a s IH]; [done|]. rewrite app_cons. simpl. by rewrite IH. Qed.

Lemma startswith_app s p : Str.startswith (p +:+ s) p = true.
Proof.
  induction p as [|a p IH]; [done|].
  rewrite app_cons. simpl. by rewrite Ascii.eqb_refl.
Qed.

Lemma startswith_inv s p : Str.startswith s p = true → ∃ t, s = p +:+ t.
Proof.
  revert s. induction p as [|a p IH]; intros s H.
  - by exists s.
  - destruct s as [|b s]; [done|]. simpl in H.
    destruct (Ascii.eqb_spec a b) as [->|]; [|done].
    destruct (IH _ H) as [t ->]. by exists t.
Qed.

Lemma endswith_app s p : Str.endswith (s +:+ p) p = true.
Proof.
  induction s as [|a s IH].
  - rewrite app_nil_l. destruct p; cbn [Str.endswith]; by rewrite String.eqb_refl.
  - rewrite app_cons. cbn [Str.endswith]. rewrite IH. apply orb_true_r.
Qed.

Lemma endswith_inv s p : Str.endswith s p = true → ∃ t, s = t +:+ p.
Proof.
  induction s as [|a s IH]; cbn [Str.endswith]; intros H.
  - rewrite orb_false_r in H. apply String.eqb_eq in H as <-. by exists "".
  - apply orb_true_iff in H as [H|H].
    + apply String.eqb_eq in H as <-. by exists "".
    + destruct (IH H) as [t ->]. by exists (String a t).
Qed.

Lemma drop_last_snoc s c : Str.drop_last (s +:+ String c "") = s.
Proof.
  induction s as [|a s IH]; [done|].
  rewrite app_cons. simpl. rewrite IH.
  destruct s; done.
Qed.



Lemma replace_char_app a b s t :
  Str.replace_char a b (s +:+ t) = Str.replace_char a b s +:+ Str.replace_char a b t.
Proof. induction s as [|x s IH]; [done|]. rewrite app_cons. simpl. by rewrite IH. Qed.

Lemma replace_char_join a b l :
  Str.replace_char a b (Str.join (String a "") l)
  = Str.join (String b "") (Str.replace_char a b <$> l).
Proof.
  induction l as [|x [|y l] IH]; [done..|].
  change (Str.join (String a "") (x :: y :: l))
    with (x +:+ String a "" +:+ Str.join (String a "") (y :: l)).
  rewrite !replace_char_app, IH. simpl. by rewrite Ascii.eqb_refl.
Qed.

End StrFacts.

(** ** Building documents *)











(** ** The sitemap index *)

Lemma isoformat_whole_seconds dt :
  isoformat (replace_microsecond dt 0)
  = fmt_date (year dt) (month dt) (day dt) +:+ "T"
    +:+ fmt_time (hour dt) (minute dt) (second dt).
Proof.
  unfold isoformat. simpl. by rewrite StrFacts.app_nil_r.
Qed.











Example index_location_absolute_output :
  index_locs ∘ snd
  <$> disk (snd (generate_sitemap_index Demo.sys ["sitemap_1.xml"]
                   "https://example.com" "/srv/sitemaps" Demo.world0))
  = [["https://example.com//srv/sitemaps/sitemap_1.xml"]].
Proof. vm_compute. reflexivity. Qed.

(** ** Locations *)

(** C8. The location of a file is the domain, with one trailing slash
    removed when it has one, then a slash, then the names on the way from
    the scanned directory to the file, joined by slashes (the path
    separator inside a name also becomes a slash).  For the directory
    /site, the domain https://example.com/ and the file /site/a/b.html
    this is https://example.com/a/b.html, which has no doubled slash
    after the scheme. *)
Theorem generate_url_location sys root_directory (file_path : list string) d :
  file_path ≠ [] →
  let rel_url := Str.join "/" (Str.replace_char (os_sep sys) "/" <$> file_path) in
  generate_url sys root_directory file_path (d +:+ "/") = d +:+ "/" +:+ rel_url
  ∧ (Str.endswith d "/" = false →
     generate_url sys root_directory file_path d = d +:+ "/" +:+ rel_url)
  ∧ (os_sep sys = "/"%char →
     generate_url sys "/site" ["a"; "b.html"] "https://example.com/"
     = "https://example.com/a/b.html"
     ∧ Str.contains "//" "example.com/a/b.html" = false).
Proof.
  intros Hne rel_url.
  assert (Hrel : Str.replace_char (os_sep sys) "/" (os_path_relpath sys file_path) = rel_url).
  { unfold os_path_relpath. destruct file_path; [done|].
    apply StrFacts.replace_char_join. }
  split; [|split].
  - unfold generate_url. rewrite Hrel.
    by rewrite StrFacts.endswith_app, StrFacts.drop_last_snoc.
  - intros Hd. unfold generate_url. by rewrite Hrel, Hd.
  - intros Hsep. unfold generate_url, os_path_relpath. rewrite Hsep.
    split; vm_compute; reflexivity.
Qed.

Lemma generate_url_location_witness :
  generate_url Demo.sys "/site" ["posts"; "a.html"] ("https://example.com" +:+ "/")
  = "https://example.com/posts/a.html"
  ∧ generate_url Demo.sys "/site" ["posts"; "a.html"] "https://example.com"
    = "https://example.com/posts/a.html"
  ∧ generate_url Demo.sys "/site" ["a"; "b.html"] "https://example.com/"
    = "https://example.com/a/b.html".
Proof.
  destruct (generate_url_location Demo.sys "/site" ["posts"; "a.html"]
              "https://example.com") as (H1 & H2 & H3); [discriminate|].
  split; [exact H1|]. split; [apply H2; reflexivity|].
  apply H3. reflexivity.
Defined.

(** ** Date resolution: the index-name override *)

(** C3. For a file whose name begins with "index" in any case, the
    last-modified value is the clock reading taken while the file is
    processed, printed down to the second with no fraction.  Nothing else
    is consulted: the value is the same whatever the file contains and
    whatever its modification time is (the file is neither opened nor
    stat'ed, and nothing is printed).  The entry that [main] appends for
    such a file, once it passed the filter, carries that value. *)
Theorem index_name_override sys root_directory file file_path w :
  Str.startswith (Str.lower file) "index" = true →
  let now := clock sys (now_calls w) in
  let value := fmt_date (year now) (month now) (day now) +:+ "T"
               +:+ fmt_time (hour now) (minute now) (second now) in
  resolve_lastmod sys root_directory file file_path w
  = (Ok value, mkWorld (S (now_calls w)) (stdout w) (disk w))
  ∧ (∀ args subdir url_entries total_files,
       let url := generate_url sys (directory args) (subdir ++ [file]) (domain args) in
       Str.endswith (Str.lower file) ".html" = true →
       Str.contains "/user/" (Str.lower url) = false →
       main_file sys args subdir (url_entries, total_files) file w
       = (Ok (url_entries ++ [<["lastmod" := value]> {["loc" := url]}], total_files + 1),
          mkWorld (S (now_calls w)) (stdout w) (disk w))).
Proof.
  intros Hindex now value.
  assert (Hres : resolve_lastmod sys root_directory file file_path w
                 = (Ok value, mkWorld (S (now_calls w)) (stdout w) (disk w))).
  { unfold resolve_lastmod. rewrite Hindex.
    unfold mbind, M_bind, datetime_now, mret, M_ret.
    by rewrite isoformat_whole_seconds. }
  split; [exact Hres|].
  intros args subdir url_entries total_files url Hhtml Huser.
  unfold main_file. rewrite Hhtml. fold url. rewrite Huser.
  unfold mbind, M_bind at 1.
  unfold resolve_lastmod. rewrite Hindex.
  unfold mbind, M_bind, datetime_now, mret, M_ret.
  by rewrite isoformat_whole_seconds.
Qed.

Lemma index_name_override_witness :
  Demo.contents ["index.html"] = Ok "<p>1061 2017-06-12 by someone</p>"
  ∧ resolve_lastmod Demo.sys "/site" "index.html" ["index.html"] Demo.world0
    = (Ok "2024-05-06T07:08:00", mkWorld 1 [] []).
Proof.
  split; [reflexivity|].
  apply (index_name_override Demo.sys "/site" "index.html" ["index.html"] Demo.world0).
  reflexivity.
Defined.

(** ** The matcher and the meaning of expressions *)

Section Matcher.

Context {R : Type}.
Implicit Types (k : string → gmap string string → option R) (s : string).

Lemma all_nil p : Str.all p "" = true.
Proof. reflexivity. Qed.

Lemma all_cons p a s : Str.all p (String a s) = p a && Str.all p s.
Proof. reflexivity. Qed.

Lemma all_app p s t : Str.all p (s +:+ t) = Str.all p s && Str.all p t.
Proof.
  induction s as [|a s IH]; [done|].
  rewrite StrFacts.app_cons, !all_cons, IH. apply andb_assoc.
Qed.

Lemma greedy_sound p (k : string → option R) s x :
  greedy p k s = Some x →
  ∃ pre s', s = pre +:+ s' ∧ Str.all p pre = true ∧ k s' = Some x.
Proof.
  induction s as [|c s IH]; simpl; intros H.
  - by exists "", "".
  - destruct (p c) eqn:Hc; [|by exists "", (String c s)].
    destruct (greedy p k s) as [y|] eqn:Hg.
    + injection H as ->. destruct (IH eq_refl) as (pre & s' & -> & Hpre & Hk).
      exists (String c pre), s'. rewrite all_cons, Hc. done.
    + by exists "", (String c s).
Qed.

Lemma greedy_complete p (k : string → option R) pre s x :
  Str.all p pre = true → k s = Some x → ∃ y, greedy p k (pre +:+ s) = Some y.
Proof.
  intros Hpre Hk. induction pre as [|a pre IH].
  - rewrite StrFacts.app_nil_l. destruct s as [|c s]; simpl; [by eexists|].
    destruct (p c); [|by eexists].
    destruct (greedy p k s); by eexists.
  - rewrite all_cons in Hpre. apply andb_true_iff in Hpre as [Ha Hpre].
    destruct (IH Hpre) as [y Hy].
    rewrite StrFacts.app_cons. simpl. rewrite Ha, Hy. by eexists.
Qed.

(** A run of the class that ends where the class ends is taken whole. *)
Lemma greedy_maximal p (k : string → option R) pre s x :
  Str.all p pre = true →
  match s with String c _ => p c = false | "" => True end →
  k s = Some x → greedy p k (pre +:+ s) = Some x.
Proof.
  intros Hpre Hs Hk. induction pre as [|a pre IH].
  - rewrite StrFacts.app_nil_l. destruct s as [|c s]; simpl; [done|].
    by rewrite Hs.
  - rewrite all_cons in Hpre. apply andb_true_iff in Hpre as [Ha Hpre].
    rewrite StrFacts.app_cons. simpl. by rewrite Ha, (IH Hpre).
Qed.

Lemma run_sound r : ∀ s g k x,
  run r s g k = Some x → ∃ s' g', matches r s g s' g' ∧ k s' g' = Some x.
Proof.
  induction r as [|c|p|r1 IH1 r2 IH2|r1 IH1 r2 IH2|p|p|name r IH];
    intros s g k x H; simpl in H.
  - exists s, g. split; [constructor|done].
  - destruct s as [|a s]; [done|].
    destruct (Ascii.eqb_spec (Str.lower_char a) (Str.lower_char c)); [|done].
    exists s, g. split; [by constructor|done].
  - destruct s as [|a s]; [done|].
    destruct (p a) eqn:Hp; [|done].
    exists s, g. split; [by constructor|done].
  - apply IH1 in H as (s1 & g1 & H1 & H).
    apply IH2 in H as (s2 & g2 & H2 & H).
    exists s2, g2. split; [by econstructor|done].
  - destruct (run r1 s g k) as [y|] eqn:H1.
    + injection H as ->. apply IH1 in H1 as (s' & g' & ? & ?).
      exists s', g'. split; [by apply matches_Alt_l|done].
    + apply IH2 in H as (s' & g' & ? & ?).
      exists s', g'. split; [by apply matches_Alt_r|done].
  - apply greedy_sound in H as (pre & s' & -> & Hpre & Hk).
    exists s', g. split; [by constructor|done].
  - destruct s as [|a s]; [done|].
    destruct (p a) eqn:Hp; [|done].
    apply greedy_sound in H as (pre & s' & -> & Hpre & Hk).
    exists s', g. split; [|done].
    apply (matches_Plus p (String a pre)); [|done].
    by rewrite all_cons, Hp.
  - apply IH in H as (s' & g' & H1 & H).
    eexists s', _. split; [by constructor|done].
Qed.

Lemma run_complete r s g s' g' :
  matches r s g s' g' →
  ∀ k x, k s' g' = Some x → ∃ y, run r s g k = Some y.
Proof.
  induction 1 as [s g|c a s g Hc|p a s g Hp|r1 r2 s g s1 g1 s2 g2 _ IH1 _ IH2
                 |r1 r2 s g s' g' _ IH|r1 r2 s g s' g' _ IH
                 |p pre s g Hpre|p pre s g Hpre Hne|name r s g s' g' _ IH];
    intros k x Hk; simpl.
  - by eexists.
  - rewrite Hc, Ascii.eqb_refl. by eexists.
  - rewrite Hp. by eexists.
  - destruct (IH2 k x Hk) as [y Hy]. by apply (IH1 _ y).
  - destruct (IH k x Hk) as [y ->]. by eexists.
  - destruct (run r1 s g k); [by eexists|]. by apply (IH k x).
  - by apply (greedy_complete p (λ s', k s' g) pre s x).
  - destruct pre as [|a pre]; [done|].
    rewrite all_cons in Hpre. apply andb_true_iff in Hpre as [Ha Hpre].
    rewrite StrFacts.app_cons, Ha.
    by apply (greedy_complete p (λ s', k s' g) pre s x).
  - by apply (IH _ x).
Qed.

End Matcher.

(** What an expression consumes is a prefix of the text. *)
Lemma matches_prefix r s g s' g' :
  matches r s g s' g' → ∃ pre, s = pre +:+ s'.
Proof.
  induction 1 as [s g|c a s g Hc|p a s g Hp|r1 r2 s g s1 g1 s2 g2 _ [p1 ->] _ [p2 ->]
                 |r1 r2 s g s' g' _ IH|r1 r2 s g s' g' _ IH
                 |p pre s g Hpre|p pre s g Hpre Hne|name r s g s' g' _ IH];
    try done.
  - by exists "".
  - by exists (String a "").
  - by exists (String a "").
  - exists (p1 +:+ p2). by rewrite StrFacts.app_assoc.
  - by exists pre.
  - by exists pre.
Qed.

Lemma take_consumed pre s :
  Str.take (String.length (pre +:+ s) - String.length s) (pre +:+ s) = pre.
Proof.
  rewrite StrFacts.length_app.
  replace (String.length pre + String.length s - String.length s)%nat
    with (String.length pre) by lia.
  induction pre as [|a pre IH]; [by destruct s|].
  rewrite StrFacts.app_cons. simpl. by rewrite IH.
Qed.

(** [search] returns the match at the first suffix that has one. *)
Lemma search_Some r content m :
  search r content = Some m →
  ∃ pre s, content = pre +:+ s ∧ match_ r s = Some m
           ∧ ∀ pre' s', content = pre' +:+ s' →
               (String.length pre' < String.length pre)%nat → match_ r s' = None.
Proof.
  induction content as [|a content IH]; simpl.
  - destruct (match_ r "") eqn:Hm; [|done]. intros [= ->].
    exists "", "". repeat split; [done|]. intros ?? _ ?. simpl in *. lia.
  - destruct (match_ r (String a content)) eqn:Hm.
    + intros [= ->]. exists "", (String a content). repeat split; [done|].
      intros ?? _ ?. simpl in *. lia.
    + intros H. destruct (IH H) as (pre & s & -> & Hs & Hbefore).
      exists (String a pre), s. repeat split; [done|].
      intros pre' s' Heq Hlen. destruct pre' as [|b pre'].
      * rewrite StrFacts.app_nil_l in Heq. by subst s'.
      * rewrite !StrFacts.app_cons in Heq. injection Heq as -> Heq.
        apply (Hbefore pre' s' Heq). simpl in Hlen. lia.
Qed.

Lemma search_first r pre s m :
  match_ r s = Some m →
  (∀ pre' s', pre +:+ s = pre' +:+ s' →
     (String.length pre' < String.length pre)%nat → match_ r s' = None) →
  search r (pre +:+ s) = Some m.
Proof.
  induction pre as [|a pre IH]; intros Hm Hbefore.
  - rewrite StrFacts.app_nil_l. destruct s; simpl; by rewrite Hm.
  - rewrite StrFacts.app_cons. simpl.
    rewrite <- StrFacts.app_cons, (Hbefore "" (String a pre +:+ s)); [|done|simpl; lia].
    apply IH; [done|]. intros pre' s' Heq Hlen.
    apply (Hbefore (String a pre') s'); [|simpl; lia].
    by rewrite !StrFacts.app_cons, Heq.
Qed.


(** ** The content-date pattern *)

Ltac inv_matches :=
  repeat match goal with
  | H : matches Eps _ _ _ _ |- _ => inversion H; subst; clear H
  | H : matches (Chr _) _ _ _ _ |- _ => inversion H; subst; clear H
  | H : matches (Cls _) _ _ _ _ |- _ => inversion H; subst; clear H
  | H : matches (Cat _ _) _ _ _ _ |- _ => inversion H; subst; clear H
  | H : matches (Star _) _ _ _ _ |- _ => inversion H; subst; clear H
  | H : matches (Plus _) _ _ _ _ |- _ => inversion H; subst; clear H
  | H : matches (Grp _ _) _ _ _ _ |- _ => inversion H; subst; clear H
  end.

(** A character that is no lower-case letter is matched by itself only. *)
Lemma lower_char_other x c :
  Str.lower_char x = c →
  negb (Str.in_range "a" "z" c) && negb (Str.in_range "224" "254" c) = true →
  x = c.
Proof.
  intros <-.
  destruct x as [[] [] [] [] [] [] [] []]; vm_compute; first [reflexivity | discriminate].
Qed.

(** Computes the literal side of the facts [lower_char x = lower_char c]
    and replaces [x] by [c] where [c] is no letter. *)
Ltac norm_lower :=
  repeat match goal with
  | H : Str.lower_char _ = Str.lower_char ?c |- _ =>
      let v := eval vm_compute in (Str.lower_char c) in
      change (Str.lower_char c) with v in H
  end;
  repeat match goal with
  | H : Str.lower_char ?x = ?c |- _ =>
      is_var x; apply lower_char_other in H; [subst x|vm_compute; reflexivity]
  end.

Lemma app_inj_length s1 t1 s2 t2 :
  s1 +:+ t1 = s2 +:+ t2 → String.length s1 = String.length s2 → s1 = s2 ∧ t1 = t2.
Proof.
  revert s2. induction s1 as [|a s1 IH]; intros [|b s2] H Hlen; try done.
  rewrite !StrFacts.app_cons in H. injection H as -> H. simpl in Hlen.
  destruct (IH s2 H) as [-> ->]; [lia|done].
Qed.

Lemma is_date_text_length t : is_date_text t = true → String.length t = 10%nat.
Proof.
  do 10 (destruct t as [|? t]; [done|]). by destruct t.
Qed.

Lemma take10 a1 a2 a3 a4 a5 a6 a7 a8 a9 a10 s :
  Str.take
    (String.length (String a1 (String a2 (String a3 (String a4 (String a5
       (String a6 (String a7 (String a8 (String a9 (String a10 s))))))))))
     - String.length s)
    (String a1 (String a2 (String a3 (String a4 (String a5
       (String a6 (String a7 (String a8 (String a9 (String a10 s))))))))))
  = String a1 (String a2 (String a3 (String a4 (String a5
       (String a6 (String a7 (String a8 (String a9 (String a10 ""))))))))).
Proof.
  apply (take_consumed
    (String a1 (String a2 (String a3 (String a4 (String a5
       (String a6 (String a7 (String a8 (String a9 (String a10 "")))))))))) s).
Qed.

Lemma content_date_match_sound s m :
  match_ content_date_regex s = Some m →
  ∃ date, group m "1" = Some date ∧ content_date_at s date.
Proof.
  unfold match_. intros H.
  apply run_sound in H as (s' & g' & Hm & [= <-]).
  cbv [content_date_regex times lit digit] in Hm. inv_matches.
  norm_lower.
  eexists. split.
  - unfold group. cbn [m_groups]. rewrite lookup_insert_eq, take10. reflexivity.
  - do 4 eexists. split; [reflexivity|].
    split; [|done]. simpl.
    repeat match goal with H : Str.is_digit _ = true |- _ => rewrite H; clear H end.
    done.
Qed.

Ltac split_andb H :=
  repeat match type of H with
  | (_ && _ = true) => let H' := fresh in apply andb_true_iff in H as [H H']
  end.

(** Builds the derivation of a match from left to right, so that each
    step knows the text it starts from. *)
Ltac build_matches :=
  lazymatch goal with
  | |- matches Eps _ _ _ _ => apply matches_Eps
  | |- matches (Cat _ _) _ _ _ _ => eapply matches_Cat; [build_matches | build_matches]
  | |- matches (Cls _) _ _ _ _ => apply matches_Cls; done
  | |- matches (Chr _) _ _ _ _ => apply matches_Chr; done
  | |- matches (Star _) _ _ _ _ => apply matches_Star; done
  | |- matches (Plus _) _ _ _ _ => apply matches_Plus; done
  | |- matches (Grp _ _) _ _ _ _ => apply matches_Grp; build_matches
  end.

Lemma content_date_match_complete s date :
  content_date_at s date →
  ∃ m, match_ content_date_regex s = Some m ∧ group m "1" = Some date.
Proof.
  intros Hat.
  assert (∃ m, match_ content_date_regex s = Some m) as [m Hm].
  { destruct Hat as (ws & b & y & rest & -> & Hd & Hne & Hws & Hb & Hy).
    do 10 (destruct date as [|? date]; [done|]). destruct date; [|done].
    cbn [is_date_text] in Hd. split_andb Hd.
    repeat match goal with H : Ascii.eqb _ _ = true |- _ =>
      apply Ascii.eqb_eq in H; subst end.
    eapply run_complete; [|reflexivity].
    cbv [content_date_regex times lit digit].
    rewrite ?StrFacts.app_cons, ?StrFacts.app_nil_l.
    build_matches. }
  exists m. split; [done|].
  destruct (content_date_match_sound s m Hm) as (date' & Hg & Hat').
  rewrite Hg. f_equal.
  destruct Hat as (ws & b & y & rest & -> & Hd & _).
  destruct Hat' as (ws' & b' & y' & rest' & Heq & Hd' & _).
  apply is_date_text_length in Hd, Hd'.
  symmetry in Heq. apply app_inj_length in Heq as [? _]; [done|congruence].
Qed.

(** ** The creation-date pattern *)

Lemma span_unique p a a' c c' r r' :
  Str.all p a = true → Str.all p a' = true →
  p c = false → p c' = false →
  a +:+ String c r = a' +:+ String c' r' →
  a = a' ∧ c = c' ∧ r = r'.
Proof.
  revert a'. induction a as [|x a IH]; intros [|x' a'] Ha Ha' Hc Hc' Heq;
    rewrite ?StrFacts.app_cons, ?StrFacts.app_nil_l in Heq.
  - by injection Heq as -> ->.
  - injection Heq as -> _. rewrite all_cons, Hc in Ha'. done.
  - injection Heq as <- _. rewrite all_cons, Hc' in Ha. done.
  - injection Heq as -> Heq. rewrite all_cons in Ha, Ha'.
    apply andb_true_iff in Ha as [_ Ha]. apply andb_true_iff in Ha' as [_ Ha'].
    by destruct (IH a' Ha Ha' Hc Hc' Heq) as (-> & -> & ->).
Qed.

Lemma length_lower s : String.length (Str.lower s) = String.length s.
Proof. induction s as [|a s IH]; [done|]. simpl. by rewrite IH. Qed.

Lemma creation_date_at_unique s v v' :
  creation_date_at s v → creation_date_at s v' → v = v'.
Proof.
  intros (key & ws1 & ws2 & rest & -> & Hkey & Hws1 & Hws2 & Hne & Hv)
         (key' & ws1' & ws2' & rest' & Heq & Hkey' & Hws1' & Hws2' & Hne' & Hv').
  apply app_inj_length in Heq as [_ Heq].
  2:{ rewrite <- (length_lower key), <- (length_lower key'). congruence. }
  change ("=>" +:+ ?t) with (String "=" (">" +:+ t)) in Heq.
  apply (span_unique Str.is_space) in Heq as (_ & _ & Heq); [|done..].
  apply (inj (String.app ">")) in Heq.
  change ("'" +:+ ?t) with (String "'" t) in Heq.
  apply (span_unique Str.is_space) in Heq as (_ & _ & Heq); [|done..].
  apply (span_unique not_quote) in Heq as (? & _ & _); done.
Qed.

Lemma creation_date_match_sound s m :
  match_ creation_date_regex s = Some m →
  ∃ value, group m "1" = Some value ∧ creation_date_at s value.
Proof.
  unfold match_. intros H.
  apply run_sound in H as (s' & g' & Hm & [= <-]).
  cbv [creation_date_regex lit] in Hm. inv_matches. norm_lower.
  eexists. split.
  - unfold group. cbn [m_groups]. rewrite lookup_insert_eq.
    match goal with |- context [Str.take _ (?v +:+ ?t)] =>
      rewrite (take_consumed v t) end.
    reflexivity.
  - match goal with |- creation_date_at (String ?c1 (String ?c2 (String ?c3 (String ?c4
        (String ?c5 (String ?c6 (String ?c7 (String ?c8 (String ?c9 (String ?c10
        (String ?c11 (String ?c12 (String ?c13 (String ?c14
          (?w1 +:+ String _ (String _ (?w2 +:+ String _ (?v +:+ String _ ?r)))))))))))))))))) _ =>
      exists (String c1 (String c2 (String c3 (String c4
        (String c5 (String c6 (String c7 (String c8 (String c9 (String c10
        (String c11 (String c12 (String c13 (String c14 "")))))))))))))), w1, w2, r
    end.
    split; [reflexivity|].
    split; [|done]. cbn [Str.lower].
    repeat match goal with H : Str.lower_char _ = _ |- _ => rewrite H; clear H end.
    reflexivity.
Qed.

Lemma creation_date_match_complete s value :
  creation_date_at s value →
  ∃ m, match_ creation_date_regex s = Some m ∧ group m "1" = Some value.
Proof.
  intros Hat.
  assert (∃ m, match_ creation_date_regex s = Some m) as [m Hm].
  { destruct Hat as (key & ws1 & ws2 & rest & -> & Hkey & Hws1 & Hws2 & Hne & Hv).
    do 14 (destruct key as [|? key]; [done|]). destruct key; [|done].
    cbn [Str.lower] in Hkey.
    injection Hkey as ?.
    eapply run_complete; [|reflexivity].
    cbv [creation_date_regex lit].
    rewrite ?StrFacts.app_cons, ?StrFacts.app_nil_l.
    build_matches. }
  exists m. split; [done|].
  destruct (creation_date_match_sound s m Hm) as (value' & Hg & Hat').
  rewrite Hg. f_equal. by apply (creation_date_at_unique s).
Qed.

(** ** [strptime] on well-formed text *)

Lemma forallb_seqZ (P : Z → bool) (n : Z) :
  forallb P (seqZ 0 n) = true → ∀ i, 0 ≤ i < n → P i = true.
Proof.
  intros H i Hi. rewrite forallb_forall in H. apply H.
  apply list_elem_of_In, elem_of_seqZ. lia.
Qed.


Lemma check_fmt4_all : forallb check_fmt4 (seqZ 0 10000) = true.
Proof. vm_compute. reflexivity. Qed.

Lemma check_fmt2_all : forallb check_fmt2 (seqZ 0 100) = true.
Proof. vm_compute. reflexivity. Qed.

Lemma fmt4_digits y :
  0 ≤ y ≤ 9999 →
  ∃ a b c d,
    fmt_0d 4 y = String a (String b (String c (String d "")))
    ∧ Str.is_digit a = true ∧ Str.is_digit b = true
    ∧ Str.is_digit c = true ∧ Str.is_digit d = true
    ∧ py_int (fmt_0d 4 y) = Ok y.
Proof.
  intros Hy. pose proof (forallb_seqZ _ _ check_fmt4_all y ltac:(lia)) as H.
  unfold check_fmt4 in H.
  destruct (fmt_0d 4 y) as [|a [|b [|c [|d [|]]]]]; try done.
  split_andb H. exists a, b, c, d. repeat split; try done.
  destruct (py_int _) as [v|]; [|done].
  apply Z.eqb_eq in H0. by subst.
Qed.

Lemma fmt2_digits n :
  0 ≤ n ≤ 99 →
  ∃ a b,
    fmt_0d 2 n = String a (String b "")
    ∧ Str.is_digit a = true ∧ Str.is_digit b = true
    ∧ py_int (fmt_0d 2 n) = Ok n.
Proof.
  intros Hn. pose proof (forallb_seqZ _ _ check_fmt2_all n ltac:(lia)) as H.
  unfold check_fmt2 in H.
  destruct (fmt_0d 2 n) as [|a [|b [|]]]; try done.
  split_andb H. exists a, b. repeat split; try done.
  destruct (py_int _) as [v|]; [|done].
  apply Z.eqb_eq in H0. by subst.
Qed.




Section Fields.

Context {R : Type}.
Implicit Types (k : string → gmap string string → option R).









End Fields.







Lemma length_fmt4 y : 0 ≤ y ≤ 9999 → String.length (fmt_0d 4 y) = 4%nat.
Proof. intros Hy. by destruct (fmt4_digits y Hy) as (a & b & c & d & -> & _). Qed.

Lemma length_fmt2 n : 0 ≤ n ≤ 99 → String.length (fmt_0d 2 n) = 2%nat.
Proof. intros Hn. by destruct (fmt2_digits n Hn) as (a & b & -> & _). Qed.











(** ** Searching for a marker

    A pattern [r] and the marker [at_] it stands for: searching [r] finds
    the leftmost marker, and finds nothing exactly when there is none. *)


Section Markers.

Variable r : regex.
Variable at_ : string → string → Prop.
Hypothesis sound : ∀ s m,
  match_ r s = Some m → ∃ x, group m "1" = Some x ∧ at_ s x.
Hypothesis complete : ∀ s x,
  at_ s x → ∃ m, match_ r s = Some m ∧ group m "1" = Some x.

Lemma search_first_marker content x :
  first_marker at_ content x →
  ∃ m, search r content = Some m ∧ group m "1" = Some x.
Proof.
  intros (pre & s & -> & Hat & Hfirst).
  destruct (complete s x Hat) as (m & Hm & Hg).
  exists m. split; [|done].
  apply search_first; [done|].
  intros pre' s' Heq Hlen.
  destruct (match_ r s') as [m'|] eqn:Hm'; [|done].
  destruct (sound s' m' Hm') as (x' & _ & Hat').
  by destruct (Hfirst pre' s' x' Heq Hlen).
Qed.

Lemma first_marker_search content m :
  search r content = Some m →
  ∃ x, group m "1" = Some x ∧ first_marker at_ content x.
Proof.
  intros H. apply search_Some in H as (pre & s & -> & Hm & Hfirst).
  destruct (sound s m Hm) as (x & Hg & Hat).
  exists x. split; [done|].
  exists pre, s. split; [done|]. split; [done|].
  intros pre' s' x' Heq Hlen Hat'.
  destruct (complete s' x' Hat') as (m' & Hm' & _).
  by rewrite (Hfirst pre' s' Heq Hlen) in Hm'.
Qed.



Lemma first_marker_unique content x x' :
  first_marker at_ content x → first_marker at_ content x' → x = x'.
Proof.
  intros H H'.
  destruct (search_first_marker content x H) as (m & Hm & Hg).
  destruct (search_first_marker content x' H') as (m' & Hm' & Hg').
  congruence.
Qed.

End Markers.


Lemma content_date_first content m :
  search content_date_regex content = Some m →
  ∃ date, group m "1" = Some date ∧ first_marker content_date_at content date.
Proof.
  apply first_marker_search;
    [apply content_date_match_sound | apply content_date_match_complete].
Qed.




Lemma creation_date_first content m :
  search creation_date_regex content = Some m →
  ∃ value, group m "1" = Some value ∧ first_marker creation_date_at content value.
Proof.
  apply first_marker_search;
    [apply creation_date_match_sound | apply creation_date_match_complete].
Qed.



(** ** The two extractors *)

Lemma printed_nil w : printed [] w = w.
Proof. destruct w. unfold printed. cbn. by rewrite app_nil_r. Qed.

Lemma printed_app l1 l2 w : printed l2 (printed l1 w) = printed (l1 ++ l2) w.
Proof. unfold printed. cbn. by rewrite app_assoc. Qed.

(** [strptime] fails with [ValueError] only. *)
Lemma strptime_raises s format r e :
  format_regex false format = Ok r →
  strptime s format = Raise e → ∃ msg, e = ValueError msg.
Proof.
  unfold strptime. intros -> H. cbn [mbind result_bind] in H.
  destruct (match_ r s) as [found|]; [|injection H as <-; eauto].
  destruct (negb _); [injection H as <-; eauto|].
  unfold group_int, py_int, datetime_new in H.
  repeat (match type of H with
          | context [match ?x with _ => _ end] => destruct x
          end; cbn [mbind result_bind] in H; try (injection H as <-; eauto); try done).
Qed.

(** What [strptime] returns is a date and a time of day that exist, with
    no fraction. *)
Lemma strptime_valid s format dt :
  strptime s format = Ok dt →
  valid_date (year dt) (month dt) (day dt) = true
  ∧ valid_time (hour dt) (minute dt) (second dt) 0 = true
  ∧ microsecond dt = 0.
Proof.
  unfold strptime. intros H.
  destruct (format_regex false format) as [r|]; [|done]. cbn [mbind result_bind] in H.
  destruct (match_ r s) as [found|]; [|done].
  destruct (negb _); [done|].
  destruct (group_int found "Y" 1900) as [y|]; [|done].
  destruct (group_int found "m" 1) as [m|]; [|done].
  destruct (group_int found "d" 1) as [d|]; [|done].
  destruct (group_int found "H" 0) as [H'|]; [|done].
  destruct (group_int found "M" 0) as [M'|]; [|done].
  destruct (group_int found "S" 0) as [S'|]; [|done].
  cbn [mbind result_bind] in H. unfold datetime_new in H.
  destruct (valid_date y m d) eqn:Hd; [|done].
  destruct (valid_time H' M' S' 0) eqn:Ht; [|done].
  cbn [negb] in H. by injection H as <-.
Qed.

Lemma isoformat_midnight dt :
  isoformat (replace_midnight dt)
  = fmt_date (year dt) (month dt) (day dt) +:+ "T00:00:00".
Proof.
  unfold isoformat, replace_midnight. cbn [year month day hour minute second microsecond].
  change (0 =? 0) with true. cbv iota.
  change (fmt_time 0 0 0) with "00:00:00".
  by rewrite StrFacts.app_nil_r.
Qed.

Lemma is_stamp_midnight dt :
  valid_date (year dt) (month dt) (day dt) = true →
  is_stamp (isoformat (replace_midnight dt)).
Proof.
  intros Hd. exists (year dt), (month dt), (day dt), 0, 0, 0.
  split; [done|]. split; [done|].
  rewrite isoformat_midnight. reflexivity.
Qed.

Lemma is_stamp_whole_seconds dt :
  valid_date (year dt) (month dt) (day dt) = true →
  valid_time (hour dt) (minute dt) (second dt) 0 = true →
  is_stamp (isoformat (replace_microsecond dt 0)).
Proof.
  intros Hd Ht. exists (year dt), (month dt), (day dt), (hour dt), (minute dt), (second dt).
  split; [done|]. split; [done|]. apply isoformat_whole_seconds.
Qed.

(** The extractors on a file that can be read: nothing is printed, and
    the result is computed from the leftmost match alone. *)
Lemma extract_date_from_content_read sys root p content w :
  fs_open sys p = Ok content →
  ∃ r, extract_date_from_content sys root p w = (Ok r, w)
    ∧ match search content_date_regex content with
      | Some m =>
          ∃ date_str, group m "1" = Some date_str
            ∧ match strptime date_str "%Y-%m-%d" with
              | Ok dt => r = Some (isoformat (replace_midnight dt))
              | Raise _ => r = None
              end
      | None => r = None
      end.
Proof.
  intros Hopen.
  unfold extract_date_from_content, try_except, open_read, lift, mbind, M_bind.
  rewrite Hopen.
  destruct (search content_date_regex content) as [m|] eqn:Hs; [|by eexists].
  destruct (content_date_first content m Hs) as (date & Hg & _). rewrite Hg.
  destruct (strptime date "%Y-%m-%d") as [dt|e] eqn:Hp.
  - eexists. split; [reflexivity|]. exists date. by rewrite Hp.
  - assert (∃ r, format_regex false "%Y-%m-%d" = Ok r) as [r Hr]
      by (eexists; reflexivity).
    destruct (strptime_raises _ _ _ _ Hr Hp) as [msg ->].
    eexists. split; [reflexivity|]. exists date. by rewrite Hp.
Qed.

Lemma extract_creation_date_read sys root p content w :
  fs_open sys p = Ok content →
  ∃ r, extract_creation_date sys root p w = (Ok r, w)
    ∧ match search creation_date_regex content with
      | Some m =>
          ∃ date_str, group m "1" = Some date_str
            ∧ match strptime date_str "%Y-%m-%d %H:%M:%S" with
              | Ok dt => r = Some (isoformat (replace_microsecond dt 0))
              | Raise _ => r = None
              end
      | None => r = None
      end.
Proof.
  intros Hopen.
  unfold extract_creation_date, try_except, open_read, lift, mbind, M_bind.
  rewrite Hopen.
  destruct (search creation_date_regex content) as [m|] eqn:Hs; [|by eexists].
  destruct (creation_date_first content m Hs) as (date & Hg & _). rewrite Hg.
  destruct (strptime date "%Y-%m-%d %H:%M:%S") as [dt|e] eqn:Hp.
  - eexists. split; [reflexivity|]. exists date. by rewrite Hp.
  - assert (∃ r, format_regex false "%Y-%m-%d %H:%M:%S" = Ok r) as [r Hr]
      by (eexists; reflexivity).
    destruct (strptime_raises _ _ _ _ Hr Hp) as [msg ->].
    eexists. split; [reflexivity|]. exists date. by rewrite Hp.
Qed.

(** The extractors on a file that cannot be read. *)
Lemma extract_date_from_content_unreadable sys root p e w :
  fs_open sys p = Raise e →
  extract_date_from_content sys root p w
  = (Ok None, printed (read_error_lines sys root p) w).
Proof.
  intros Hopen.
  unfold extract_date_from_content, try_except, open_read, lift, mbind, M_bind.
  unfold read_error_lines. by rewrite Hopen.
Qed.

Lemma extract_creation_date_unreadable sys root p e w :
  fs_open sys p = Raise e →
  extract_creation_date sys root p w
  = (Ok None, printed (read_error_lines sys root p) w).
Proof.
  intros Hopen.
  unfold extract_creation_date, try_except, open_read, lift, mbind, M_bind.
  unfold read_error_lines. by rewrite Hopen.
Qed.

(** ** [strptime] on the text YYYY-MM-DD *)
















(** ** What the extractors return *)







(** A date that does not exist hides the good one that follows it. *)
Example extract_date_from_content_bad_first :
  let sys := mkSystem "/" [File "a.html"]
               (λ _, Ok "2017-02-30 by x, 2017-06-12 by y")
               Demo.mtimes Demo.ticking in
  extract_date_from_content sys "/site" ["a.html"] Demo.world0
  = (Ok None, Demo.world0).
Proof. vm_compute. reflexivity. Qed.




(** X3. A file that cannot be opened or read makes neither extractor
    fail: each returns [None] and prints one line, "Error reading file",
    the path, a colon and the text of the error.  The clock is not read
    and no document is written. *)
Theorem extractors_unreadable sys root p e w :
  fs_open sys p = Raise e →
  let line := "Error reading file " +:+ path_str sys root p +:+ ": " +:+ str_exn e in
  let w' := mkWorld (now_calls w) (stdout w ++ [line]) (disk w) in
  extract_date_from_content sys root p w = (Ok None, w')
  ∧ extract_creation_date sys root p w = (Ok None, w').
Proof.
  intros Hopen line w'.
  rewrite (extract_date_from_content_unreadable sys root p e w Hopen).
  rewrite (extract_creation_date_unreadable sys root p e w Hopen).
  unfold read_error_lines. rewrite Hopen. done.
Qed.

Lemma extractors_unreadable_witness :
  fs_open Demo.sys ["gone.html"] = Raise (OSError "[Errno 2] No such file or directory")
  ∧ extract_date_from_content Demo.sys "/site" ["gone.html"] Demo.world0
    = (Ok None,
       mkWorld 0 ["Error reading file /site/gone.html: [Errno 2] No such file or directory"] [])
  ∧ extract_creation_date Demo.sys "/site" ["gone.html"] Demo.world0
    = (Ok None,
       mkWorld 0 ["Error reading file /site/gone.html: [Errno 2] No such file or directory"] []).
Proof.
  split; [reflexivity|].
  exact (extractors_unreadable Demo.sys "/site" ["gone.html"]
           (OSError "[Errno 2] No such file or directory") Demo.world0 eq_refl).
Defined.

(** The extractors return, and what they return is a time stamp. *)
Lemma extractors_total sys root p w :
  ∃ r1 r2,
    extract_date_from_content sys root p w
      = (Ok r1, printed (read_error_lines sys root p) w)
    ∧ extract_creation_date sys root p w
      = (Ok r2, printed (read_error_lines sys root p) w)
    ∧ (∀ v, r1 = Some v → is_stamp v ∧ Str.endswith v "T00:00:00" = true)
    ∧ (∀ v, r2 = Some v → is_stamp v).
Proof.
  destruct (fs_open sys p) as [content|e] eqn:Hopen.
  - destruct (extract_date_from_content_read sys root p content w Hopen) as (r1 & -> & H1).
    destruct (extract_creation_date_read sys root p content w Hopen) as (r2 & -> & H2).
    exists r1, r2. unfold read_error_lines. rewrite Hopen, printed_nil.
    split; [done|]. split; [done|]. split.
    + intros v ->. destruct (search content_date_regex content); [|done].
      destruct H1 as (date & _ & H1).
      destruct (strptime date "%Y-%m-%d") as [dt|] eqn:Hp; [|done].
      injection H1 as ->. destruct (strptime_valid _ _ _ Hp) as (Hd & _).
      split; [by apply is_stamp_midnight|].
      rewrite isoformat_midnight. apply StrFacts.endswith_app.
    + intros v ->. destruct (search creation_date_regex content); [|done].
      destruct H2 as (date & _ & H2).
      destruct (strptime date "%Y-%m-%d %H:%M:%S") as [dt|] eqn:Hp; [|done].
      injection H2 as ->. destruct (strptime_valid _ _ _ Hp) as (Hd & Ht & _).
      by apply is_stamp_whole_seconds.
  - exists None, None.
    rewrite (extract_date_from_content_unreadable sys root p e w Hopen).
    rewrite (extract_creation_date_unreadable sys root p e w Hopen).
    done.
Qed.

(** X4. Neither extractor ever raises, whatever the file holds and
    whatever happens when it is read; neither reads the clock or writes a
    document, and each prints at most the one line of a failed read.  A
    value that an extractor returns is a time stamp to the second,
    YYYY-MM-DDTHH:MM:SS, of a date and a time of day that exist; the one of
    [extract_date_from_content] is at midnight. *)
Theorem extractors_never_raise sys root p w :
  ∃ r1 r2,
    extract_date_from_content sys root p w
      = (Ok r1, printed (read_error_lines sys root p) w)
    ∧ extract_creation_date sys root p w
      = (Ok r2, printed (read_error_lines sys root p) w)
    ∧ (∀ v, r1 = Some v → is_stamp v ∧ Str.endswith v "T00:00:00" = true)
    ∧ (∀ v, r2 = Some v → is_stamp v).
Proof. exact (extractors_total sys root p w). Qed.

(** ** The date chain *)

Lemma is_stamp_nonempty v : is_stamp v → v ≠ "".
Proof.
  intros (y & m & d & H & M & S & _ & _ & ->) Heq.
  apply (f_equal String.length) in Heq.
  rewrite !StrFacts.length_app in Heq. cbn [String.length] in Heq. lia.
Qed.

Lemma truthy_stamp v : is_stamp v → truthy (Some v) = true.
Proof. intros H. apply is_stamp_nonempty in H. by destruct v. Qed.

(** The results of the extractors depend on the file alone, not on the
    moment they are called. *)
Lemma extractors_results sys root p :
  ∃ r1 r2,
    (∀ w, extract_date_from_content sys root p w
          = (Ok r1, printed (read_error_lines sys root p) w))
    ∧ (∀ w, extract_creation_date sys root p w
            = (Ok r2, printed (read_error_lines sys root p) w))
    ∧ (∀ v, r1 = Some v → is_stamp v)
    ∧ (∀ v, r2 = Some v → is_stamp v)
    ∧ (∀ e, fs_open sys p = Raise e → r1 = None ∧ r2 = None).
Proof.
  pose (w0 := mkWorld 0 [] []).
  destruct (extractors_total sys root p w0) as (r1 & r2 & H1 & H2 & S1 & S2).
  exists r1, r2.
  assert (L1 : ∀ w, extract_date_from_content sys root p w
                    = (Ok r1, printed (read_error_lines sys root p) w)).
  { intros w. destruct (fs_open sys p) as [content|e] eqn:Hopen.
    - destruct (extract_date_from_content_read sys root p content w0 Hopen) as (a & Ha & Pa).
      destruct (extract_date_from_content_read sys root p content w Hopen) as (b & Hb & Pb).
      assert (a = r1) as -> by congruence.
      unfold read_error_lines. rewrite Hopen, printed_nil, Hb. do 2 f_equal.
      destruct (search content_date_regex content); [|congruence].
      destruct Pa as (da & Ga & Pa), Pb as (db & Gb & Pb).
      assert (da = db) as -> by congruence.
      destruct (strptime db "%Y-%m-%d"); congruence.
    - rewrite (extract_date_from_content_unreadable sys root p e w0 Hopen) in H1.
      assert (r1 = None) as -> by congruence.
      apply (extract_date_from_content_unreadable sys root p e w Hopen). }
  assert (L2 : ∀ w, extract_creation_date sys root p w
                    = (Ok r2, printed (read_error_lines sys root p) w)).
  { intros w. destruct (fs_open sys p) as [content|e] eqn:Hopen.
    - destruct (extract_creation_date_read sys root p content w0 Hopen) as (a & Ha & Pa).
      destruct (extract_creation_date_read sys root p content w Hopen) as (b & Hb & Pb).
      assert (a = r2) as -> by congruence.
      unfold read_error_lines. rewrite Hopen, printed_nil, Hb. do 2 f_equal.
      destruct (search creation_date_regex content); [|congruence].
      destruct Pa as (da & Ga & Pa), Pb as (db & Gb & Pb).
      assert (da = db) as -> by congruence.
      destruct (strptime db "%Y-%m-%d %H:%M:%S"); congruence.
    - rewrite (extract_creation_date_unreadable sys root p e w0 Hopen) in H2.
      assert (r2 = None) as -> by congruence.
      apply (extract_creation_date_unreadable sys root p e w Hopen). }
  split; [done|]. split; [done|].
  split; [intros v Hv; by destruct (S1 v Hv)|]. split; [done|].
  intros e Hopen.
  rewrite (extract_date_from_content_unreadable sys root p e w0 Hopen) in H1.
  rewrite (extract_creation_date_unreadable sys root p e w0 Hopen) in H2.
  split; congruence.
Qed.

(** The chain for a file whose name does not begin with "index", in terms
    of what the two extractors return for it. *)
Lemma resolve_lastmod_chain sys root file p r1 r2 w :
  Str.startswith (Str.lower file) "index" = false →
  (∀ w, extract_date_from_content sys root p w
        = (Ok r1, printed (read_error_lines sys root p) w)) →
  (∀ w, extract_creation_date sys root p w
        = (Ok r2, printed (read_error_lines sys root p) w)) →
  (∀ v, r1 = Some v → is_stamp v) →
  (∀ v, r2 = Some v → is_stamp v) →
  let lines := read_error_lines sys root p in
  resolve_lastmod sys root file p w
  = match r1, r2 with
    | Some v, _ => (Ok v, printed lines w)
    | None, Some v => (Ok v, printed (lines ++ lines) w)
    | None, None =>
        match fs_mtime sys p with
        | Ok dt => (Ok (isoformat (replace_microsecond dt 0)), printed (lines ++ lines) w)
        | Raise e => (Raise e, printed (lines ++ lines) w)
        end
    end.
Proof.
  intros Hindex H1 H2 S1 S2 lines.
  unfold resolve_lastmod. rewrite Hindex.
  unfold mbind, M_bind at 1. rewrite H1.
  destruct r1 as [v1|].
  { by rewrite (truthy_stamp v1 (S1 v1 eq_refl)). }
  cbn [truthy]. unfold mbind, M_bind at 1. rewrite H2, printed_app.
  destruct r2 as [v2|].
  { by rewrite (truthy_stamp v2 (S2 v2 eq_refl)). }
  cbn [truthy]. unfold get_file_last_modified, mbind, M_bind, lift.
  by destruct (fs_mtime sys p).
Qed.


Lemma isoformat_nonempty dt : isoformat dt ≠ "".
Proof.
  unfold isoformat. intros Heq. apply (f_equal String.length) in Heq.
  rewrite !StrFacts.length_app in Heq. cbn [String.length] in Heq. lia.
Qed.

Lemma index_resolution sys root file p w :
  Str.startswith (Str.lower file) "index" = true →
  resolve_lastmod sys root file p w
  = (Ok (isoformat (replace_microsecond (clock sys (now_calls w)) 0)),
     mkWorld (S (now_calls w)) (stdout w) (disk w)).
Proof. intros Hindex. unfold resolve_lastmod. by rewrite Hindex. Qed.











(** ** The walk *)

Lemma node_ind_nested (P : node → Prop) :
  (∀ f, P (File f)) → (∀ d l, Forall P l → P (Dir d l)) → ∀ n, P n.
Proof.
  intros HF HD. fix IH 1. intros [f|d l]; [apply HF|]. apply HD.
  revert l. fix IHl 1. intros [|a l]; constructor; [apply IH|apply IHl].
Qed.

Lemma elem_of_file_names f l : f ∈ file_names l ↔ File f ∈ l.
Proof.
  unfold file_names. rewrite list_elem_of_omap. split.
  - intros ([g|d sub] & Hin & Heq); [|done]. by injection Heq as ->.
  - intros Hin. by exists (File f).
Qed.

(** The listings that the walk of one node yields. *)
Lemma elem_of_walk_node n : ∀ parent subdir dirs files,
  (subdir, dirs, files) ∈ walk_node parent n →
  ∀ f, f ∈ files → ∃ rest, subdir = parent ++ rest ∧ file_in [n] rest f.
Proof.
  induction n as [g|d l IH] using node_ind_nested; intros parent subdir dirs files Hin f Hf.
  { by apply elem_of_nil in Hin. }
  cbn [walk_node] in Hin. apply elem_of_cons in Hin as [Heq|Hin].
  - injection Heq as -> -> ->. exists [d]. split; [done|].
    apply (file_below _ d l); [apply list_elem_of_here|].
    apply file_here. by apply elem_of_file_names.
  - apply list_elem_of_In, in_flat_map in Hin as (c & Hc & Hin).
    apply list_elem_of_In in Hc, Hin.
    rewrite Forall_forall in IH.
    destruct (IH c Hc _ _ _ _ Hin f Hf) as (rest & -> & Hrest).
    exists (d :: rest). split; [by rewrite <- app_assoc|].
    apply (file_below _ d l); [apply list_elem_of_here|].
    inversion Hrest as [? ? Hh|? d' sub ? ? Hd Hsub]; subst.
    + apply list_elem_of_singleton in Hh. subst c. by apply file_here.
    + apply list_elem_of_singleton in Hd. subst c. by apply (file_below _ d' sub).
Qed.

Lemma walk_node_complete n : ∀ parent rest f,
  file_in [n] rest f → rest ≠ [] →
  ∃ dirs files, (parent ++ rest, dirs, files) ∈ walk_node parent n ∧ f ∈ files.
Proof.
  induction n as [g|d l IH] using node_ind_nested; intros parent rest f Hin Hne.
  { inversion Hin as [? ? Hh|? d' sub ? ? Hd Hsub]; subst; [done|].
    by apply list_elem_of_singleton in Hd. }
  inversion Hin as [? ? Hh|? d' sub subdir ? Hd Hsub]; subst; [done|].
  apply list_elem_of_singleton in Hd. injection Hd as -> ->.
  cbn [walk_node].
  inversion Hsub as [? ? Hh|? d2 sub2 subdir2 ? Hd2 Hsub2]; subst.
  - exists (dir_names l), (file_names l). split; [apply list_elem_of_here|].
    by apply elem_of_file_names.
  - rewrite Forall_forall in IH.
    destruct (IH (Dir d2 sub2) Hd2 (parent ++ [d]) (d2 :: subdir2) f) as (dirs & files & Hw & Hf).
    { apply (file_below _ d2 sub2); [apply list_elem_of_here|done]. }
    { done. }
    exists dirs, files. split; [|done].
    apply list_elem_of_further. apply list_elem_of_In, in_flat_map.
    exists (Dir d2 sub2). split; [by apply list_elem_of_In|].
    apply list_elem_of_In. by rewrite <- app_assoc in Hw.
Qed.

Lemma elem_of_walked_files listing subdir file :
  (subdir, file) ∈ walked_files listing ↔ file_in listing subdir file.
Proof.
  unfold walked_files. rewrite list_elem_of_bind. split.
  - intros ([[sd dirs] files] & Hin & Hw).
    apply list_elem_of_fmap in Hin as (f & [= -> ->] & Hf).
    unfold os_walk in Hw. apply elem_of_cons in Hw as [Heq|Hw].
    + injection Heq as -> -> ->. apply file_here. by apply elem_of_file_names.
    + apply list_elem_of_In, in_flat_map in Hw as (c & Hc & Hw).
      apply list_elem_of_In in Hc, Hw.
      destruct (elem_of_walk_node c [] _ _ _ Hw f Hf) as (rest & -> & Hrest).
      cbn [app].
      inversion Hrest as [? ? Hh|? d' sub ? ? Hd Hsub]; subst.
      * apply list_elem_of_singleton in Hh. subst c. by apply file_here.
      * apply list_elem_of_singleton in Hd. subst c. by apply (file_below _ d' sub).
  - intros Hin. inversion Hin as [? ? Hh|? d sub sd ? Hd Hsub]; subst.
    + exists ([], dir_names listing, file_names listing). split.
      * apply list_elem_of_fmap. exists file. split; [done|]. by apply elem_of_file_names.
      * apply list_elem_of_here.
    + destruct (walk_node_complete (Dir d sub) [] (d :: sd) file) as (dirs & files & Hw & Hf).
      { apply (file_below _ d sub); [apply list_elem_of_here|done]. }
      { done. }
      exists (d :: sd, dirs, files). split.
      * apply list_elem_of_fmap. by exists file.
      * apply list_elem_of_further. apply list_elem_of_In, in_flat_map.
        exists (Dir d sub). split; by apply list_elem_of_In.
Qed.

(** ** The scan *)

(** The two ways in which the date chain ends. *)
Lemma resolve_lastmod_cases sys root file p w :
  (∃ v w', resolve_lastmod sys root file p w = (Ok v, w')
     ∧ v ≠ "" ∧ disk w' = disk w)
  ∨ (∃ e w', resolve_lastmod sys root file p w = (Raise e, w')
       ∧ fs_mtime sys p = Raise e
       ∧ Str.startswith (Str.lower file) "index" = false
       ∧ disk w' = disk w ∧ now_calls w' = now_calls w).
Proof.
  destruct (Str.startswith (Str.lower file) "index") eqn:Hindex.
  - left. rewrite (index_resolution sys root file p w Hindex).
    eexists _, _. split; [done|]. split; [apply isoformat_nonempty|done].
  - destruct (extractors_results sys root p) as (r1 & r2 & H1 & H2 & S1 & S2 & _).
    rewrite (resolve_lastmod_chain sys root file p r1 r2 w Hindex H1 H2 S1 S2).
    destruct r1 as [v1|].
    { left. eexists _, _. split; [done|]. split; [by apply is_stamp_nonempty, S1|done]. }
    destruct r2 as [v2|].
    { left. eexists _, _. split; [done|]. split; [by apply is_stamp_nonempty, S2|done]. }
    destruct (fs_mtime sys p) as [dt|e].
    + left. eexists _, _. split; [done|]. split; [apply isoformat_nonempty|done].
    + right. by eexists _, _.
Qed.

Lemma for_M_app {S A} (body : S → A → M S) l1 l2 init w :
  for_M body init (l1 ++ l2) w
  = match for_M body init l1 w with
    | (Ok s, w') => for_M body s l2 w'
    | (Raise e, w') => (Raise e, w')
    end.
Proof.
  revert init w. induction l1 as [|x l1 IH]; intros init w; [done|].
  cbn [app for_M]. unfold mbind, M_bind.
  destruct (body init x w) as [[s|e] w']; [apply IH|done].
Qed.

Lemma scan_directory sys args subdir files st w :
  for_M (main_file sys args subdir) st files w
  = for_M (scan_step sys args) st ((λ file, (subdir, file)) <$> files) w.
Proof.
  revert st w. induction files as [|file files IH]; intros st w; [done|].
  cbn [fmap list_fmap for_M]. unfold mbind, M_bind.
  change (scan_step sys args st (subdir, file) w) with (main_file sys args subdir st file w).
  destruct (main_file sys args subdir st file w) as [[s|e] w']; [apply IH|done].
Qed.

(** The two loops of the scan are one loop over the walked files. *)
Lemma main_scan_flat sys args w :
  main_scan sys args w
  = for_M (scan_step sys args) ([], 0) (walked_files (fs_tree sys)) w.
Proof.
  unfold main_scan, walked_files. generalize (os_walk (fs_tree sys)).
  generalize (([], 0) : list entry * Z). intros st walk. revert st w.
  induction walk as [|[[subdir dirs] files] walk IH]; intros st w; [done|].
  cbn [for_M]. rewrite bind_cons, for_M_app. unfold mbind at 1, M_bind at 1.
  rewrite scan_directory.
  destruct (for_M (scan_step sys args) st _ w) as [[s|e] w']; [apply IH|done].
Qed.

(** One round of the scan. *)
Lemma scan_step_cases sys args entries total sf w :
  if selected sys args sf then
    (∃ v w', scan_step sys args (entries, total) sf w
             = (Ok (entries ++ [entry_of sys args sf v], total + 1), w')
       ∧ resolve_lastmod sys (directory args) sf.2 (sf.1 ++ [sf.2]) w = (Ok v, w')
       ∧ v ≠ "" ∧ disk w' = disk w)
    ∨ (∃ e w', scan_step sys args (entries, total) sf w = (Raise e, w')
         ∧ fs_mtime sys (sf.1 ++ [sf.2]) = Raise e
         ∧ Str.startswith (Str.lower sf.2) "index" = false
         ∧ disk w' = disk w)
  else scan_step sys args (entries, total) sf w = (Ok (entries, total), w).
Proof.
  destruct sf as [subdir file]. unfold selected, scan_step, main_file, file_url.
  cbn [fst snd].
  destruct (Str.endswith (Str.lower file) ".html"); [|done].
  destruct (Str.contains "/user/" _); [done|]. cbn [andb negb].
  unfold mbind, M_bind.
  destruct (resolve_lastmod_cases sys (directory args) file (subdir ++ [file]) w)
    as [(v & w' & Hr & Hv & Hd)|(e & w' & Hr & Hm & Hi & Hd & _)]; rewrite Hr.
  - left. exists v, w'. done.
  - right. exists e, w'. done.
Qed.

(** The scan over a list of walked files, from any state. *)
Lemma scan_files sys args l : ∀ entries total w,
  match for_M (scan_step sys args) (entries, total) l w with
  | (Ok (entries', total'), w') =>
      ∃ new,
        entries' = entries ++ new
        ∧ total' = total + Z.of_nat (length new)
        ∧ Forall2 (λ sf e, ∃ v w1 w2,
                     e = entry_of sys args sf v ∧ v ≠ ""
                     ∧ resolve_lastmod sys (directory args) sf.2 (sf.1 ++ [sf.2]) w1
                       = (Ok v, w2))
            (List.filter (selected sys args) l) new
        ∧ disk w' = disk w
  | (Raise e, w') =>
      ∃ sf, sf ∈ List.filter (selected sys args) l
        ∧ fs_mtime sys (sf.1 ++ [sf.2]) = Raise e
        ∧ Str.startswith (Str.lower sf.2) "index" = false
        ∧ disk w' = disk w
  end.
Proof.
  induction l as [|sf l IH]; intros entries total w.
  { cbn. exists []. rewrite app_nil_r. split; [done|]. split; [cbn; lia|]. by split. }
  cbn [for_M List.filter]. unfold mbind, M_bind.
  pose proof (scan_step_cases sys args entries total sf w) as Hstep.
  destruct (selected sys args sf).
  - destruct Hstep as [(v & w1 & Hs & Hr & Hv & Hd)|(e & w1 & Hs & Hm & Hi & Hd)];
      rewrite Hs.
    + specialize (IH (entries ++ [entry_of sys args sf v]) (total + 1) w1).
      destruct (for_M _ _ l w1) as [[[entries' total']|e] w'].
      * destruct IH as (new & -> & -> & Hall & Hd').
        exists (entry_of sys args sf v :: new).
        split; [by rewrite <- app_assoc|]. split; [cbn [length]; lia|].
        split; [|congruence].
        constructor; [|done]. by exists v, w, w1.
      * destruct IH as (sf' & Hin & Hm & Hi & Hd').
        exists sf'. split; [by apply list_elem_of_further|]. split; [done|].
        split; [done|congruence].
    + exists sf. split; [apply list_elem_of_here|done].
  - rewrite Hstep. apply IH.
Qed.

(** The outcome of the scan. *)
Lemma main_scan_result sys args w :
  let selected_files := List.filter (selected sys args) (walked_files (fs_tree sys)) in
  match main_scan sys args w with
  | (Ok (entries, total), w') =>
      total = Z.of_nat (length entries)
      ∧ Forall2 (λ sf e, ∃ v w1 w2,
                   e = entry_of sys args sf v ∧ v ≠ ""
                   ∧ resolve_lastmod sys (directory args) sf.2 (sf.1 ++ [sf.2]) w1
                     = (Ok v, w2))
          selected_files entries
      ∧ disk w' = disk w
  | (Raise e, w') =>
      ∃ sf, sf ∈ selected_files
        ∧ fs_mtime sys (sf.1 ++ [sf.2]) = Raise e
        ∧ Str.startswith (Str.lower sf.2) "index" = false
        ∧ disk w' = disk w
  end.
Proof.
  intros selected_files. rewrite main_scan_flat.
  pose proof (scan_files sys args (walked_files (fs_tree sys)) [] 0 w) as H.
  destruct (for_M _ _ _ w) as [[[entries total]|e] w']; [|done].
  destruct H as (new & -> & -> & Hall & Hd). cbn [app]. split; [lia|done].
Qed.

Lemma elem_of_selected sys args subdir file :
  (subdir, file) ∈ List.filter (selected sys args) (walked_files (fs_tree sys))
  ↔ file_in (fs_tree sys) subdir file
    ∧ Str.endswith (Str.lower file) ".html" = true
    ∧ Str.contains "/user/"
        (Str.lower (generate_url sys (directory args) (subdir ++ [file]) (domain args)))
      = false.
Proof.
  rewrite list_elem_of_In, filter_In, <- list_elem_of_In, elem_of_walked_files.
  unfold selected, file_url. cbn [fst snd].
  rewrite andb_true_iff, negb_true_iff. tauto.
Qed.

(** X10. Which files get an entry.  When the scan returns, the locations
    of its entries are, in the order of the walk, the locations of the
    walked files that pass the two tests; and a file passes them exactly
    when it is a file of the tree below the scanned directory whose name
    ends in .html (in any case) and whose location, in lower case, does not
    contain /user/.  The location is the whole URL, so the test also looks
    at the domain. *)
Theorem main_scan_entries sys args w entries total w' :
  main_scan sys args w = (Ok (entries, total), w') →
  let selected_files := List.filter (selected sys args) (walked_files (fs_tree sys)) in
  (λ e : entry, e !! "loc") <$> entries
  = (λ sf, Some (generate_url sys (directory args) (sf.1 ++ [sf.2]) (domain args)))
    <$> selected_files
  ∧ ∀ subdir file,
      (subdir, file) ∈ selected_files
      ↔ file_in (fs_tree sys) subdir file
        ∧ Str.endswith (Str.lower file) ".html" = true
        ∧ Str.contains "/user/"
            (Str.lower (generate_url sys (directory args) (subdir ++ [file]) (domain args)))
          = false.
Proof.
  intros Hscan selected_files. split; [|apply elem_of_selected].
  pose proof (main_scan_result sys args w) as H. rewrite Hscan in H.
  destruct H as (_ & Hall & _). fold selected_files in Hall. clear Hscan.
  induction Hall as [|sf e l es (v & w1 & w2 & -> & _) _ IH]; [done|].
  cbn [fmap list_fmap]. cbn [fmap list_fmap] in IH. rewrite IH.
  unfold entry_of, file_url. rewrite lookup_insert_ne by done. by rewrite lookup_singleton_eq.
Qed.

Lemma main_scan_entries_witness :
  ∃ entries total w',
    main_scan Demo.sys_ok Demo.args Demo.world0 = (Ok (entries, total), w')
    ∧ (λ e : entry, e !! "loc") <$> entries
      = [Some "https://example.com/index.html"; Some "https://example.com/posts/a.html";
         Some "https://example.com/posts/b.HTML"; Some "https://example.com/posts/c.html"]
    ∧ ¬ (["User"], "Profile.html")
        ∈ List.filter (selected Demo.sys_ok Demo.args) (walked_files (fs_tree Demo.sys_ok)).
Proof.
  destruct (main_scan Demo.sys_ok Demo.args Demo.world0) as [[[entries total]|e] w'] eqn:Hscan;
    [|vm_compute in Hscan; discriminate Hscan].
  exists entries, total, w'. split; [reflexivity|].
  destruct (main_scan_entries Demo.sys_ok Demo.args Demo.world0 entries total w' Hscan)
    as [Hlocs Hiff].
  split.
  - rewrite Hlocs. vm_compute. reflexivity.
  - intros Hin. apply Hiff in Hin as (_ & _ & Huser). vm_compute in Huser. discriminate Huser.
Defined.




